(** * Victron Cloud integration: polling, extraction and metric derivation

    A shallow embedding of the Python sources under
    [custom_components/victron_cloud] ([sensors.py], [api.py],
    [coordinator.py], [__init__.py]) together with the properties of the
    derivation functions, the batch extraction, the error classification and
    the choice of active descriptors.

    Python values decoded from JSON are an inductive type; floats are the
    IEEE 754 binary64 numbers of [PrimFloat]; dictionaries keyed by integers
    or by catalog keys are [gmap]s; exceptions are values of a result type. *)

From Stdlib Require Import ZArith String Ascii List Bool.
From Stdlib Require PrimFloat SpecFloat FloatOps FloatAxioms.
From stdpp Require Import base option list gmap strings sorting pretty.

Local Open Scope Z_scope.
Local Open Scope string_scope.

(** ** Python values, exceptions and builtins *)

Module Py.

Abbreviation float := PrimFloat.float.

(** A value produced by [json.loads]: [None], [bool], [int], [float], [str],
    [list] or [dict] (items in insertion order). *)
#[warnings="-register-all"]
Inductive PyValue : Type :=
| VNone
| VBool (b : bool)
| VInt (z : Z)
| VFloat (f : float)
| VStr (s : string)
| VList (items : list PyValue)
| VDict (items : list (string * PyValue)).

(** Exception classes that the sources raise, catch or let through. *)
Inductive ExcClass : Type :=
| TypeError
| ValueError
| ArithmeticError
| ZeroDivisionError
| OverflowError
| AttributeError
| KeyError
| ClientError
| ClientResponseError
| VictronApiError
| VictronApiAuthError
| HomeAssistantError
| ConfigEntryAuthFailed
| ConfigEntryNotReady
| UpdateFailed.

#[global] Instance ExcClass_eq_dec : EqDecision ExcClass.
Proof. solve_decision. Defined.

(** The direct base class below [Exception], as declared by Python, aiohttp,
    Home Assistant and [api.py] ([class VictronApiAuthError(VictronApiError)]). *)
Definition base_class (c : ExcClass) : option ExcClass :=
  match c with
  | ZeroDivisionError | OverflowError => Some ArithmeticError
  | ClientResponseError => Some ClientError
  | VictronApiAuthError => Some VictronApiError
  | ConfigEntryAuthFailed | ConfigEntryNotReady | UpdateFailed =>
      Some HomeAssistantError
  | _ => None
  end.

Definition issubclass (c d : ExcClass) : bool :=
  bool_decide (c = d) || bool_decide (base_class c = Some d).

(** An exception instance: its class and, for [ClientResponseError], the HTTP
    status it carries. *)
Record PyExc : Type := mkExc { exc_class : ExcClass; exc_status : option Z }.

Definition isinstance (e : PyExc) (c : ExcClass) : bool :=
  issubclass (exc_class e) c.

Inductive Result (A : Type) : Type :=
| Return (a : A)
| Raise (e : PyExc).
Arguments Return {A} a.
Arguments Raise {A} e.

Definition raise {A : Type} (c : ExcClass) : Result A := Raise (mkExc c None).

Definition bind {A B : Type} (r : Result A) (k : A -> Result B) : Result B :=
  match r with
  | Return a => k a
  | Raise e => Raise e
  end.

(** [try: body  except cs1: h1  except cs2: h2 ...]: the first clause one of
    whose classes the exception is an instance of handles it; an exception
    that no clause names propagates. *)
Fixpoint handle {A : Type} (e : PyExc)
    (clauses : list (list ExcClass * (PyExc -> Result A))) : Result A :=
  match clauses with
  | [] => Raise e
  | (classes, handler) :: rest =>
      if existsb (isinstance e) classes then handler e else handle e rest
  end.

Definition try_except {A : Type} (body : Result A)
    (clauses : list (list ExcClass * (PyExc -> Result A))) : Result A :=
  match body with
  | Return a => Return a
  | Raise e => handle e clauses
  end.

Definition returns {A : Type} (r : Result A) : Prop := exists a, r = Return a.

(** [float(int)]: the nearest binary64 number, ties to even; [None] stands
    for the [OverflowError] Python raises when that would be infinite. *)
Definition float_of_Z (z : Z) : option float :=
  match SpecFloat.binary_normalize FloatOps.prec FloatOps.emax z 0 false with
  | SpecFloat.S754_infinity _ => None
  | sf => Some (FloatOps.SF2Prim sf)
  end.

(** [int(float)]: truncation toward zero; NaN raises [ValueError] and an
    infinity raises [OverflowError]. *)
Definition int_of_float (f : float) : Result Z :=
  match FloatOps.Prim2SF f with
  | SpecFloat.S754_nan => raise ValueError
  | SpecFloat.S754_infinity _ => raise OverflowError
  | SpecFloat.S754_zero _ => Return 0
  | SpecFloat.S754_finite s m e =>
      let a := match e with
               | Zneg p => Z.shiftr (Zpos m) (Zpos p)
               | _ => Z.shiftl (Zpos m) e
               end in
      Return (if s then - a else a)
  end.

(** The two string parsers behind [float(str)] and [int(str)] are Python
    builtins; the development is parametric in them. [None] stands for the
    [ValueError] Python raises on an unparsable string. *)
Class Builtins : Type := {
  float_of_str : string -> option float;
  int_of_str : string -> option Z
}.

Section Conversions.
Context `{Builtins}.

(** [float(v)] *)
Definition py_float (v : PyValue) : Result float :=
  match v with
  | VNone => raise TypeError
  | VBool b => Return (if b then PrimFloat.one else PrimFloat.zero)
  | VInt z =>
      match float_of_Z z with
      | Some f => Return f
      | None => raise OverflowError
      end
  | VFloat f => Return f
  | VStr s =>
      match float_of_str s with
      | Some f => Return f
      | None => raise ValueError
      end
  | VList _ | VDict _ => raise TypeError
  end.

(** [int(v)] *)
Definition py_int (v : PyValue) : Result Z :=
  match v with
  | VNone => raise TypeError
  | VBool b => Return (if b then 1 else 0)
  | VInt z => Return z
  | VFloat f => int_of_float f
  | VStr s =>
      match int_of_str s with
      | Some z => Return z
      | None => raise ValueError
      end
  | VList _ | VDict _ => raise TypeError
  end.
End Conversions.

(** [v is None] *)
Definition is_none (v : PyValue) : bool :=
  match v with VNone => true | _ => false end.

(** [v == 0] *)
Definition eq_zero (v : PyValue) : bool :=
  match v with
  | VBool b => negb b
  | VInt z => (z =? 0)%Z
  | VFloat f => PrimFloat.eqb f PrimFloat.zero
  | _ => false
  end.

(** [x / y] on floats. *)
Definition truediv (x y : float) : Result float :=
  if PrimFloat.eqb y PrimFloat.zero then raise ZeroDivisionError
  else Return (PrimFloat.div x y).

(** Lookup of a key among the items of a decoded JSON object. *)
Fixpoint items_get (k : string) (d : list (string * PyValue)) : option PyValue :=
  match d with
  | [] => None
  | (k', v) :: rest => if String.eqb k k' then Some v else items_get k rest
  end.

(** [v.get(k, dflt)]: only a [dict] has the method. *)
Definition dict_get (v : PyValue) (k : string) (dflt : PyValue) : Result PyValue :=
  match v with
  | VDict d => Return (default dflt (items_get k d))
  | _ => raise AttributeError
  end.

(** [d.get(k)] on a [dict[int, StateType]]: a missing key reads as [None]. *)
Definition get (d : gmap Z PyValue) (k : Z) : PyValue :=
  default VNone (d !! k).

(** [timedelta(seconds=n)] for an integer [n], kept as its number of
    seconds: Python raises [OverflowError] when the number of whole days,
    [n // 86400], is beyond 999999999 in magnitude. *)
Definition timedelta_seconds (n : Z) : Result Z :=
  if (Z.abs (n / 86400) <=? 999999999)%Z then Return n
  else raise OverflowError.

(** [timedelta.max], in whole seconds. *)
Definition timedelta_max_seconds : Z := 999999999 * 86400 + 86399.

(** [bool(v)]: the truth value Python gives a decoded JSON value. *)
Definition truthy (v : PyValue) : bool :=
  match v with
  | VNone => false
  | VBool b => b
  | VInt z => negb (z =? 0)%Z
  | VFloat f => negb (PrimFloat.eqb f PrimFloat.zero)
  | VStr s => negb (String.eqb s "")
  | VList l => match l with [] => false | _ => true end
  | VDict d => match d with [] => false | _ => true end
  end.

(** [a or b] *)
Definition py_or (a b : PyValue) : PyValue := if truthy a then a else b.

Notation "x <- r ;; k" := (bind r (fun x => k))
  (at level 100, r at next level, right associativity, only parsing).

End Py.
Import Py.

(** ** [const.py] *)

Module const.
Definition API_BASE_URL : string := "https://vrmapi.victronenergy.com/v2".
(** [DEFAULT_SCAN_INTERVAL = timedelta(minutes=1)], in seconds. *)
Definition DEFAULT_SCAN_INTERVAL : Z := 60.
Definition MIN_SCAN_INTERVAL : Z := 30.
Definition DEFAULT_DEVICE_INSTANCE : Z := 0.
Definition DOMAIN : string := "victron_cloud".
Definition CONF_SCAN_INTERVAL : string := "scan_interval".
Definition CONF_SENSORS : string := "sensors".
Definition ERROR_INVALID_AUTH : string := "invalid_auth".
Definition ERROR_CANNOT_CONNECT : string := "cannot_connect".
Definition ERROR_NO_INSTALLATIONS : string := "no_installations".
End const.

(** ** [api.py]: the client of the VRM API *)

Module api.

(** What the client hands to [session.get]. *)
Record Request : Type := {
  url : string;
  params : list (string * string);
  headers : list (string * string)
}.

(** The remote side: [session.get(..., raise_for_status=True)] followed by
    [response.json()] either yields the decoded payload or raises. *)
Definition Transport : Type := Request -> Result PyValue.

Record VictronApiClient : Type := { _api_token : string }.

Definition client_headers (self : VictronApiClient) : list (string * string) :=
  [("Content-Type", "application/json");
   ("x-authorization", "Token " ++ _api_token self)].

(** [err.status in (401, 403)] *)
Definition status_in (err : PyExc) (codes : list Z) : bool :=
  match exc_status err with
  | Some s => bool_decide (s ∈ codes)
  | None => false
  end.

(** The [except] clauses shared by the three calls. *)
Definition http_clauses : list (list ExcClass * (PyExc -> Result PyValue)) :=
  [([ClientResponseError],
    fun err => if status_in err [401; 403] then raise VictronApiAuthError
               else raise VictronApiError);
   ([ClientError], fun _ => raise VictronApiError)].

(** [isinstance(item, dict) and "idSite" in item] *)
Definition is_installation (item : PyValue) : bool :=
  match item with
  | VDict d => bool_decide (is_Some (items_get "idSite" d))
  | _ => false
  end.

Definition installations_request (self : VictronApiClient) : Request :=
  {| url := const.API_BASE_URL ++ "/installations";
     params := [];
     headers := client_headers self |}.

Definition async_get_installations (transport : Transport)
    (self : VictronApiClient) : Result (list PyValue) :=
  payload <- try_except (transport (installations_request self)) http_clauses ;;
  records <- dict_get payload "records" VNone ;;
  match records with
  | VList items => Return (filter (fun item => is_installation item = true) items)
  | _ => raise VictronApiError
  end.

Definition async_get_site_details (transport : Transport)
    (self : VictronApiClient) (installation_id : Z) : Result PyValue :=
  let url := const.API_BASE_URL ++ "/installations/" ++ pretty installation_id in
  try_except
    (transport {| url := url; params := []; headers := client_headers self |})
    http_clauses.

(** The body of the loop over one series: the second component of the last
    entry, when the series is a non-empty list whose last entry is a list of
    at least two elements. *)
Definition latest_value (values : PyValue) : PyValue :=
  match values with
  | VList series =>
      match last series with
      | Some (VList (_ :: v :: _)) => v
      | _ => VNone
      end
  | _ => VNone
  end.

Section Extraction.
Context `{Builtins}.

(** [for attribute_id, values in data.items(): ...] *)
Fixpoint extract (items : list (string * PyValue))
    (latest_values : gmap Z PyValue) : Result (gmap Z PyValue) :=
  match items with
  | [] => Return latest_values
  | (attribute_id, values) :: rest =>
      attribute_key <- try_except
        (k <- py_int (VStr attribute_id) ;; Return (Some k))
        [([ValueError; TypeError], fun _ => Return None)] ;;
      match attribute_key with
      | None => extract rest latest_values
      | Some k => extract rest (<[k := latest_value values]> latest_values)
      end
  end.

Definition latest_values_request (self : VictronApiClient)
    (installation_id : Z) (attribute_ids : list Z) (device_instance : Z)
    : Request :=
  {| url := const.API_BASE_URL ++ "/installations/" ++ pretty installation_id
            ++ "/widgets/Graph";
     params := ("instance", pretty device_instance)
               :: map (fun attribute_id => ("attributeIds[]", pretty attribute_id))
                      attribute_ids;
     headers := client_headers self |}.

Definition async_get_latest_values (transport : Transport)
    (self : VictronApiClient) (installation_id : Z) (attribute_ids : list Z)
    (device_instance : Z) : Result (gmap Z PyValue) :=
  payload <- try_except
    (transport (latest_values_request self installation_id attribute_ids
                  device_instance))
    http_clauses ;;
  records <- dict_get payload "records" (VDict []) ;;
  match records with
  | VDict _ =>
      data <- dict_get records "data" VNone ;;
      match data with
      | VDict items => extract items ∅
      | _ => raise VictronApiError
      end
  | _ => raise VictronApiError
  end.
End Extraction.

End api.

(** ** [coordinator.py]: the polling coordinator *)

Module coordinator.

(** The fields the class sets in [__init__], and the fields it inherits from
    Home Assistant's [DataUpdateCoordinator] that the sensors and the refresh
    cycle read and write: the cached batch [data], [last_update_success],
    whether a re-authentication flow was started and whether the next refresh
    is scheduled. *)
Record VictronDataUpdateCoordinator : Type := {
  api_client : api.VictronApiClient;
  installation_id : Z;
  installation_name : string;
  device_instance : Z;
  attribute_ids : list Z;
  update_interval : Z;
  data : gmap Z PyValue;
  last_update_success : bool;
  reauth_started : bool;
  refresh_scheduled : bool
}.

Section Update.
Context `{Builtins}.

Definition _async_update_data (transport : api.Transport)
    (self : VictronDataUpdateCoordinator) : Result (gmap Z PyValue) :=
  try_except
    (api.async_get_latest_values transport (api_client self)
       (installation_id self) (attribute_ids self) (device_instance self))
    [([VictronApiAuthError], fun _ => raise ConfigEntryAuthFailed);
     ([VictronApiError], fun _ => raise UpdateFailed)].

(** One refresh cycle as Home Assistant's [DataUpdateCoordinator] runs it
    around [_async_update_data] (library code the class inherits, with a
    listener registered and the coordinator bound to its config entry): a
    returned batch replaces [data]; on [ConfigEntryAuthFailed] the previous
    [data] stays, a re-authentication
    flow is started and no further refresh is scheduled; on [UpdateFailed]
    or any other exception the previous [data] stays and the next refresh is
    scheduled after the same interval. *)
Definition _async_refresh (transport : api.Transport)
    (self : VictronDataUpdateCoordinator) : VictronDataUpdateCoordinator :=
  match _async_update_data transport self with
  | Return batch =>
      {| api_client := api_client self;
         installation_id := installation_id self;
         installation_name := installation_name self;
         device_instance := device_instance self;
         attribute_ids := attribute_ids self;
         update_interval := update_interval self;
         data := batch;
         last_update_success := true;
         reauth_started := reauth_started self;
         refresh_scheduled := true |}
  | Raise err =>
      let auth_failed := isinstance err ConfigEntryAuthFailed in
      {| api_client := api_client self;
         installation_id := installation_id self;
         installation_name := installation_name self;
         device_instance := device_instance self;
         attribute_ids := attribute_ids self;
         update_interval := update_interval self;
         data := data self;
         last_update_success := false;
         reauth_started := reauth_started self || auth_failed;
         refresh_scheduled := negb auth_failed |}
  end.

(** [async_config_entry_first_refresh] (Home Assistant library code): the
    first refresh either stores its batch or makes the setup fail, with
    [ConfigEntryAuthFailed] passed on and any other failure reported as
    [ConfigEntryNotReady]. *)
Definition async_config_entry_first_refresh (transport : api.Transport)
    (self : VictronDataUpdateCoordinator)
    : Result VictronDataUpdateCoordinator :=
  match _async_update_data transport self with
  | Return _ => Return (_async_refresh transport self)
  | Raise err =>
      if isinstance err ConfigEntryAuthFailed then Raise err
      else raise ConfigEntryNotReady
  end.
End Update.

End coordinator.

(** ** [sensors.py]: the metric catalog and the sensor entity *)

Module sensors.

Record VictronSensorEntityDescription : Type := {
  key : string;
  name : string;
  native_unit_of_measurement : option string;
  attribute_id : option Z;
  requires : list Z;
  value_fn : option (gmap Z PyValue -> Result PyValue);
  available_fn : option (gmap Z PyValue -> bool)
}.

Definition BATTERY_STATE_MAP : gmap Z string :=
  list_to_map
    [(0, "Off"); (2, "Fault"); (3, "Bulk"); (4, "Absorption"); (5, "Float");
     (6, "Storage"); (7, "Equalize"); (245, "Off"); (247, "Equalize");
     (252, "Ext. Control")].

Definition LOAD_STATE_MAP : gmap Z string :=
  list_to_map [(0, "Off"); (1, "On"); (2, "Fault")].

(** Units, as Home Assistant's constants spell them. *)
Definition POWER_WATT : string := "W".
Definition ELECTRIC_POTENTIAL_VOLT : string := "V".
Definition ELECTRIC_CURRENT_AMPERE : string := "A".
Definition ENERGY_KILO_WATT_HOUR : string := "kWh".

Section Catalog.
Context `{Builtins}.

Definition _calculate_ratio (numerator denominator : Z)
    (data : gmap Z PyValue) : Result PyValue :=
  let num := get data numerator in
  let den := get data denominator in
  if is_none num || (is_none den || eq_zero den) then Return VNone
  else
    try_except
      (x <- py_float num ;; y <- py_float den ;; q <- truediv x y ;;
       Return (VFloat q))
      [([TypeError; ValueError; ZeroDivisionError], fun _ => Return VNone)].

Definition _calculate_product (factor_a factor_b : Z)
    (data : gmap Z PyValue) : Result PyValue :=
  let a := get data factor_a in
  let b := get data factor_b in
  if is_none a || is_none b then Return VNone
  else
    try_except
      (x <- py_float a ;; y <- py_float b ;;
       Return (VFloat (PrimFloat.mul x y)))
      [([TypeError; ValueError], fun _ => Return VNone)].

Definition _map_state (mapping : gmap Z string) (attribute_id : Z)
    (data : gmap Z PyValue) : Result PyValue :=
  let raw := get data attribute_id in
  if is_none raw then Return VNone
  else
    try_except
      (k <- py_int raw ;; Return (VStr (default "Unknown" (mapping !! k))))
      [([TypeError; ValueError], fun _ => Return (VStr "Unknown"))].

(** A descriptor that only names its attribute: no [requires], no
    [value_fn], no [available_fn]. *)
Definition direct (k n : string) (unit : string) (a : Z)
    : VictronSensorEntityDescription :=
  {| key := k; name := n; native_unit_of_measurement := Some unit;
     attribute_id := Some a; requires := []; value_fn := None;
     available_fn := None |}.

Definition SENSOR_DESCRIPTIONS : list VictronSensorEntityDescription :=
  [ direct "solar_power" "Victron Solar Power" POWER_WATT 442;
    direct "solar_voltage" "Victron Solar Voltage" ELECTRIC_POTENTIAL_VOLT 86;
    {| key := "solar_current"; name := "Victron Solar Current";
       native_unit_of_measurement := Some ELECTRIC_CURRENT_AMPERE;
       attribute_id := None; requires := [442; 86];
       value_fn := Some (fun data => _calculate_ratio 442 86 data);
       available_fn := None |};
    direct "battery_current" "Victron Battery Current" ELECTRIC_CURRENT_AMPERE 82;
    direct "battery_voltage" "Victron Battery Voltage" ELECTRIC_POTENTIAL_VOLT 81;
    {| key := "battery_state"; name := "Victron Battery State";
       native_unit_of_measurement := None;
       attribute_id := Some 85; requires := [];
       value_fn := Some (fun data => _map_state BATTERY_STATE_MAP 85 data);
       available_fn := None |};
    {| key := "battery_power"; name := "Victron Battery Power";
       native_unit_of_measurement := Some POWER_WATT;
       attribute_id := None; requires := [81; 82];
       value_fn := Some (fun data => _calculate_product 81 82 data);
       available_fn := None |};
    direct "load_current" "Victron Load Current" ELECTRIC_CURRENT_AMPERE 242;
    {| key := "load_state"; name := "Victron Load State";
       native_unit_of_measurement := None;
       attribute_id := Some 241; requires := [];
       value_fn := Some (fun data => _map_state LOAD_STATE_MAP 241 data);
       available_fn := None |};
    {| key := "load_power"; name := "Victron Load Power";
       native_unit_of_measurement := Some POWER_WATT;
       attribute_id := None; requires := [81; 242];
       value_fn := Some (fun data => _calculate_product 81 242 data);
       available_fn := None |};
    direct "solar_energy_today" "Victron Solar Energy Today"
      ENERGY_KILO_WATT_HOUR 94 ].

(** [{description.key: description for description in SENSOR_DESCRIPTIONS}] *)
Definition SENSOR_MAP : gmap string VictronSensorEntityDescription :=
  foldl (fun m description => <[key description := description]> m) ∅
    SENSOR_DESCRIPTIONS.

Definition DEFAULT_SENSOR_KEYS : list string := map key SENSOR_DESCRIPTIONS.
End Catalog.

Arguments SENSOR_DESCRIPTIONS : simpl never.
Arguments SENSOR_MAP : simpl never.
Arguments DEFAULT_SENSOR_KEYS : simpl never.

Record VictronSensor : Type := {
  coordinator : coordinator.VictronDataUpdateCoordinator;
  entity_description : VictronSensorEntityDescription
}.

Definition native_value (self : VictronSensor) : Result PyValue :=
  let data := coordinator.data (coordinator self) in
  let description := entity_description self in
  match value_fn description with
  | Some f => f data
  | None =>
      match attribute_id description with
      | None => Return VNone
      | Some a => Return (get data a)
      end
  end.

(** [CoordinatorEntity.available], the [super().available] of the class
    (Home Assistant library code): the coordinator's last update succeeded. *)
Definition CoordinatorEntity_available (self : VictronSensor) : bool :=
  coordinator.last_update_success (coordinator self).

Definition available (self : VictronSensor) : bool :=
  let data := coordinator.data (coordinator self) in
  let description := entity_description self in
  match available_fn description with
  | Some f => f data
  | None =>
      match attribute_id description with
      | Some a =>
          match data !! a with
          | Some v => negb (is_none v)
          | None => false
          end
      | None => CoordinatorEntity_available self
      end
  end.

(** [extra_state_attributes]: the items of the returned dict. *)
Definition extra_state_attributes (self : VictronSensor)
    : list (string * PyValue) :=
  let description := entity_description self in
  match attribute_id description with
  | Some a =>
      [("attribute_id", VInt a);
       ("raw_value", get (coordinator.data (coordinator self)) a)]
  | None => []
  end.

(** What [async_setup_entry] expects under [hass.data[DOMAIN][entry_id]]: a
    dict that may have the keys "coordinator" and "descriptions". *)
Record EntryData : Type := {
  entry_coordinator : option coordinator.VictronDataUpdateCoordinator;
  entry_descriptions : option (list VictronSensorEntityDescription)
}.

(** [d[k]]: subscripting raises [KeyError] on a missing key. *)
Definition subscript {A : Type} (o : option A) : Result A :=
  match o with
  | Some a => Return a
  | None => raise KeyError
  end.

(** The platform setup: one sensor per description, in order, all on the
    coordinator of the entry. [hass_data] is [hass.data]; the returned list
    is what [async_add_entities] receives. *)
Definition async_setup_entry (hass_data : gmap string (gmap string EntryData))
    (entry_id : string) : Result (list VictronSensor) :=
  domain_data <- subscript (hass_data !! const.DOMAIN) ;;
  data <- subscript (domain_data !! entry_id) ;;
  coordinator <- subscript (entry_coordinator data) ;;
  descriptions <- subscript (entry_descriptions data) ;;
  Return (map (fun description =>
                 {| coordinator := coordinator;
                    entity_description := description |})
              descriptions).

End sensors.

(** ** [__init__.py]: setting up a config entry *)

Module init.

(** The parts of the config entry the setup reads: [entry.data] and
    [entry.options]. An option that is not set is [None]. *)
Record VictronConfigEntry : Type := {
  conf_api_token : string;
  conf_installation_id : Z;
  conf_installation_name : option string;
  conf_device_instance : option Z;
  options_sensors : option (list string);
  options_scan_interval : option Z
}.

Record VictronRuntimeData : Type := {
  runtime_coordinator : coordinator.VictronDataUpdateCoordinator;
  runtime_descriptions : list sensors.VictronSensorEntityDescription
}.

Section Setup.
Context `{Builtins}.

(** [selected_keys = entry.options.get(CONF_SENSORS, DEFAULT_SENSOR_KEYS)] *)
Definition selected_keys (entry : VictronConfigEntry) : list string :=
  default sensors.DEFAULT_SENSOR_KEYS (options_sensors entry).

(** [[SENSOR_MAP[key] for key in keys if key in SENSOR_MAP]] *)
Definition lookup_keys (keys : list string)
    : list sensors.VictronSensorEntityDescription :=
  omap (fun key => sensors.SENSOR_MAP !! key) keys.

(** [[SENSOR_MAP[key] for key in keys]]: subscripting raises [KeyError]
    on a key the map lacks. *)
Fixpoint index_keys (keys : list string)
    : Result (list sensors.VictronSensorEntityDescription) :=
  match keys with
  | [] => Return []
  | key :: rest =>
      match sensors.SENSOR_MAP !! key with
      | Some description =>
          tail <- index_keys rest ;; Return (description :: tail)
      | None => raise KeyError
      end
  end.

Definition descriptions (entry : VictronConfigEntry)
    : Result (list sensors.VictronSensorEntityDescription) :=
  let descriptions := lookup_keys (selected_keys entry) in
  match descriptions with
  | [] => index_keys sensors.DEFAULT_SENSOR_KEYS
  | _ => Return descriptions
  end.

(** [sorted(xs)] on integers. *)
Definition sorted (xs : gset Z) : list Z := merge_sort Z.le (elements xs).

(** [sorted({*[direct ids], *[required ids]})] *)
Definition attribute_ids
    (descriptions : list sensors.VictronSensorEntityDescription) : list Z :=
  sorted
    (list_to_set
       (omap sensors.attribute_id descriptions
        ++ concat (map sensors.requires descriptions))).

(** The interval of the setup, in seconds: [timedelta(seconds=n)] for a
    configured integer, [DEFAULT_SCAN_INTERVAL] when the option is not set. *)
Definition scan_interval (entry : VictronConfigEntry) : Result Z :=
  match options_scan_interval entry with
  | Some update_interval => timedelta_seconds update_interval
  | None => Return const.DEFAULT_SCAN_INTERVAL
  end.

(** [VictronDataUpdateCoordinator(hass, entry, api_client, attribute_ids,
    update_interval)]; an interval of zero is false and gives way to
    [DEFAULT_SCAN_INTERVAL]. The cache starts as the empty batch: Home
    Assistant holds [None] there until a refresh has succeeded, and the
    setup creates no sensor before that. *)
Definition new_coordinator (entry : VictronConfigEntry)
    (attribute_ids : list Z) (update_interval : Z)
    : coordinator.VictronDataUpdateCoordinator :=
  {| coordinator.api_client := {| api._api_token := conf_api_token entry |};
     coordinator.installation_id := conf_installation_id entry;
     coordinator.installation_name :=
       default "Victron Installation" (conf_installation_name entry);
     coordinator.device_instance := default 0 (conf_device_instance entry);
     coordinator.attribute_ids := attribute_ids;
     coordinator.update_interval :=
       (if (update_interval =? 0)%Z then const.DEFAULT_SCAN_INTERVAL
        else update_interval);
     coordinator.data := ∅;
     coordinator.last_update_success := true;
     coordinator.reauth_started := false;
     coordinator.refresh_scheduled := false |}.

Definition async_setup_entry (transport : api.Transport)
    (entry : VictronConfigEntry) : Result VictronRuntimeData :=
  descriptions <- descriptions entry ;;
  let attribute_ids := attribute_ids descriptions in
  scan_interval <- scan_interval entry ;;
  let coordinator := new_coordinator entry attribute_ids scan_interval in
  coordinator <- coordinator.async_config_entry_first_refresh transport
                   coordinator ;;
  Return {| runtime_coordinator := coordinator;
            runtime_descriptions := descriptions |}.
End Setup.

(** [async_setup]: [hass.data.setdefault(DOMAIN, {})]. *)
Definition async_setup (hass_data : gmap string (gmap string sensors.EntryData))
    : gmap string (gmap string sensors.EntryData) :=
  match hass_data !! const.DOMAIN with
  | Some _ => hass_data
  | None => <[const.DOMAIN := ∅]> hass_data
  end.

End init.

(** ** [config_flow.py]: the configuration and options flows *)

Module config_flow.

(** The schema a form is shown with. *)
Inductive Schema : Type :=
| STEP_USER_DATA_SCHEMA
| installation_schema (installation_options : gmap string PyValue)
| options_schema (current_sensors : list string) (scan_interval_default : Z)
    (sensor_options : list (string * string)).

(** What a step returns: [async_create_entry], [async_show_form] or
    [async_abort]. *)
Inductive FlowResult (D : Type) : Type :=
| create_entry (data : D)
| show_form (step_id : string) (errors : gmap string string) (data_schema : Schema)
| abort (reason : string).
Arguments create_entry {D} data.
Arguments show_form {D} step_id errors data_schema.
Arguments abort {D} reason.

(** The options an options flow stores: [CONF_SENSORS] and
    [CONF_SCAN_INTERVAL]. *)
Record OptionsData : Type := {
  data_sensors : list string;
  data_scan_interval : Z
}.

(** The entry data the configuration flow stores. It is created by the
    installation step on user input, which is not part of this model. *)
Record ConfigData : Type := {
  data_api_token : string;
  data_installation_id : Z;
  data_installation_name : PyValue;
  data_device_instance : Z
}.

Record VictronConfigFlow : Type := {
  _installations : list PyValue;
  _api_token : option string
}.

(** [user_input.get(CONF_SENSORS)] of the options form: missing or [None], a
    single string, a list, or a set or tuple (in its iteration order). *)
Inductive SensorsInput : Type :=
| sensors_none
| sensors_str (s : string)
| sensors_list (l : list string)
| sensors_set_or_tuple (l : list string).

(** The user input of the options form; [input_scan_interval] is [None] when
    the mapping has no [CONF_SCAN_INTERVAL] key. *)
Record OptionsInput : Type := {
  input_sensors : SensorsInput;
  input_scan_interval : option PyValue
}.

Section Flows.
Context `{Builtins}.
(** The builtins [str(v)] and [s.strip()]. *)
Variable str : PyValue -> string.
Variable strip : string -> string.

(** The loop of [async_step_installation] over [self._installations]. *)
Fixpoint installation_options (installations : list PyValue)
    (options : gmap string PyValue) : Result (gmap string PyValue) :=
  match installations with
  | [] => Return options
  | installation :: rest =>
      installation_id <- dict_get installation "idSite" VNone ;;
      if is_none installation_id then installation_options rest options
      else
        name0 <- dict_get installation "name" VNone ;;
        let name := py_or name0 (VStr ("Installation " ++ str installation_id)) in
        installation_options rest (<[str installation_id := name]> options)
  end.

(** [async_step_installation] called without user input, as [async_step_user]
    calls it; [api_token] is [self._api_token], which the caller has set, so
    that the assertion on it holds. *)
Definition async_step_installation (api_token : string)
    (installations : list PyValue) : Result (FlowResult ConfigData) :=
  options <- installation_options installations ∅ ;;
  if Nat.eqb (size options) 0 then Return (abort const.ERROR_NO_INSTALLATIONS)
  else Return (show_form "installation" ∅ (installation_schema options)).

(** [VictronConfigFlow.async_step_user]; [user_input] is the API token the
    form delivers. The flow object after the step comes with the result. *)
Definition async_step_user (transport : api.Transport)
    (self : VictronConfigFlow) (user_input : option string)
    : Result (VictronConfigFlow * FlowResult ConfigData) :=
  match user_input with
  | None => Return (self, show_form "user" ∅ STEP_USER_DATA_SCHEMA)
  | Some token =>
      let api_token := strip token in
      let client := {| api._api_token := api_token |} in
      match api.async_get_installations transport client with
      | Raise err =>
          if isinstance err VictronApiAuthError then
            Return (self, show_form "user"
                            {[ "base" := const.ERROR_INVALID_AUTH ]}
                            STEP_USER_DATA_SCHEMA)
          else if isinstance err VictronApiError then
            Return (self, show_form "user"
                            {[ "base" := const.ERROR_CANNOT_CONNECT ]}
                            STEP_USER_DATA_SCHEMA)
          else Raise err
      | Return installations =>
          match installations with
          | [] =>
              Return (self, show_form "user"
                              {[ "base" := const.ERROR_NO_INSTALLATIONS ]}
                              STEP_USER_DATA_SCHEMA)
          | _ :: _ =>
              result <- async_step_installation api_token installations ;;
              Return ({| _installations := installations;
                         _api_token := Some api_token |}, result)
          end
      end
  end.

(** The first lines of the options step: a string becomes a one-element
    list, a set or tuple a list; [None] stands for Python's [None]. *)
Definition as_list (selected_sensors : SensorsInput) : option (list string) :=
  match selected_sensors with
  | sensors_none => None
  | sensors_str s => Some [s]
  | sensors_list l => Some l
  | sensors_set_or_tuple l => Some l
  end.

(** [[sensor for sensor in selected_sensors if sensor in SENSOR_MAP]], applied
    when the selection is not empty. *)
Definition known_sensors (selected_sensors : option (list string))
    : list string :=
  match selected_sensors with
  | None | Some [] => []
  | Some l => filter (fun sensor => is_Some (sensors.SENSOR_MAP !! sensor)) l
  end.

(** The form of the options step. *)
Definition options_form (config_entry : init.VictronConfigEntry)
    (errors : gmap string string) : FlowResult OptionsData :=
  show_form "user" errors
    (options_schema
       (default sensors.DEFAULT_SENSOR_KEYS (init.options_sensors config_entry))
       (default const.DEFAULT_SCAN_INTERVAL
          (init.options_scan_interval config_entry))
       (map (fun description =>
               (sensors.key description, sensors.name description))
            sensors.SENSOR_DESCRIPTIONS)).

(** [VictronOptionsFlowHandler.async_step_user]. *)
Definition options_async_step_user (config_entry : init.VictronConfigEntry)
    (user_input : option OptionsInput) : Result (FlowResult OptionsData) :=
  match user_input with
  | None => Return (options_form config_entry ∅)
  | Some input =>
      let selected_sensors := known_sensors (as_list (input_sensors input)) in
      match selected_sensors with
      | [] =>
          Return (options_form config_entry
                    {[ const.CONF_SENSORS := "select_sensor" ]})
      | _ :: _ =>
          raw <- sensors.subscript (input_scan_interval input) ;;
          scan_interval <- py_int raw ;;
          if (scan_interval <? 30)%Z then
            Return (options_form config_entry
                      {[ const.CONF_SCAN_INTERVAL := "interval_too_short" ]})
          else
            Return (create_entry {| data_sensors := selected_sensors;
                                    data_scan_interval := scan_interval |})
      end
  end.

(** [VictronOptionsFlowHandler.async_step_init] *)
Definition async_step_init (config_entry : init.VictronConfigEntry)
    (user_input : option OptionsInput) : Result (FlowResult OptionsData) :=
  options_async_step_user config_entry user_input.
End Flows.

End config_flow.

(** ** A concrete pair of parsers

    Plain ASCII decimal integer literals with an optional sign, which is how
    the remote API spells attribute ids. It agrees with Python's [int] and
    [float] on such literals and, like them, rejects strings without digits;
    it is used to run the code on concrete inputs. The general theorems hold
    for every pair of parsers. *)

Definition digit_of_ascii (c : ascii) : option Z :=
  let n := Z.of_N (N_of_ascii c) in
  if (48 <=? n)%Z && (n <=? 57)%Z then Some (n - 48) else None.

Fixpoint digits_value (s : string) (acc : Z) : option Z :=
  match s with
  | EmptyString => Some acc
  | String c rest =>
      match digit_of_ascii c with
      | Some d => digits_value rest (10 * acc + d)
      | None => None
      end
  end.

Definition decimal_literal (s : string) : option (bool * Z) :=
  match s with
  | EmptyString => None
  | String "-" (String _ _ as rest) => pair true <$> digits_value rest 0
  | String "+" (String _ _ as rest) => pair false <$> digits_value rest 0
  | _ => pair false <$> digits_value s 0
  end.

Definition decimal_builtins : Builtins :=
  {| int_of_str s :=
       (fun '(neg, n) => if neg : bool then - n else n) <$> decimal_literal s;
     float_of_str s :=
       (fun '(neg, n) =>
          FloatOps.SF2Prim
            (SpecFloat.binary_normalize FloatOps.prec FloatOps.emax
               (if neg : bool then - n else n) 0 neg))
       <$> decimal_literal s |}.

(** ** Vocabulary of the statements *)

(** [float(v)] succeeds. *)
Definition convertible `{Builtins} (v : PyValue) : Prop := returns (py_float v).

(** [float(v)] raises [OverflowError]: [v] is an integer too large for a
    binary64 number. *)
Definition overflows `{Builtins} (v : PyValue) : Prop :=
  py_float v = raise OverflowError.

(** An integer as the decoder of the session yields one. The client takes
    its session from [async_get_clientsession], whose responses decode
    their body with orjson: that decoder gives a Python [int] only for a
    literal from -2^63 to 2^64 - 1. *)
Definition decoded_int (z : Z) : Prop := - 2 ^ 63 <= z < 2 ^ 64.

(** A decoded JSON value: every integer in it is one the decoder yields. *)
Fixpoint decoded (v : PyValue) : Prop :=
  match v with
  | VInt z => decoded_int z
  | VList items =>
      (fix all (l : list PyValue) : Prop :=
         match l with
         | [] => True
         | x :: rest => decoded x /\ all rest
         end) items
  | VDict items =>
      (fix all (l : list (string * PyValue)) : Prop :=
         match l with
         | [] => True
         | (_, x) :: rest => decoded x /\ all rest
         end) items
  | _ => True
  end.

(** A batch of decoded values. *)
Definition decoded_batch (data : gmap Z PyValue) : Prop :=
  forall a v, data !! a = Some v -> decoded v.

(** The remote side as the session presents it: every payload is decoded. *)
Definition decoding (transport : api.Transport) : Prop :=
  forall request payload, transport request = Return payload -> decoded payload.

(** A JSON number, or a boolean, which Python counts among the numbers. *)
Definition number (v : PyValue) : Prop :=
  match v with
  | VBool _ | VInt _ | VFloat _ => True
  | _ => False
  end.

(** A value [float] rejects with [TypeError] or [ValueError]: null, a list,
    an object, or a string that is not the text of a number. *)
Definition non_numeric `{Builtins} (v : PyValue) : Prop :=
  match v with
  | VNone | VList _ | VDict _ => True
  | VStr s => float_of_str s = None
  | _ => False
  end.

(** A [[timestamp, value, ...]] entry of a series. *)
Definition is_point (entry : PyValue) : Prop :=
  match entry with
  | VList (_ :: _ :: _) => True
  | _ => False
  end.

(** The key of an item of the response parses to the attribute id [a]. *)
Definition parses_to `{Builtins} (a : Z) (item : string * PyValue) : Prop :=
  int_of_str item.1 = Some a.

(** A descriptor names the attribute id [a], directly or in [requires]. *)
Definition depends_on (d : sensors.VictronSensorEntityDescription) (a : Z) : Prop :=
  sensors.attribute_id d = Some a \/ a ∈ sensors.requires d.

(** What one round of the extraction loop does to the batch built so far. *)
Definition store_latest `{Builtins} (latest_values : gmap Z PyValue)
    (item : string * PyValue) : gmap Z PyValue :=
  match int_of_str item.1 with
  | Some k => <[k := api.latest_value item.2]> latest_values
  | None => latest_values
  end.

(** The exception is an aiohttp client failure: a [ClientError] or one of its
    subclasses. *)
Definition client_failure (err : PyExc) : Prop :=
  isinstance err ClientError = true.

(** The exception reports an HTTP response with status 401 or 403. *)
Definition auth_status (err : PyExc) : Prop :=
  exc_class err = ClientResponseError
  /\ (exc_status err = Some 401 \/ exc_status err = Some 403).

(** The call the coordinator makes to the gateway in one refresh. *)
Definition gateway_call `{Builtins} (transport : api.Transport)
    (self : coordinator.VictronDataUpdateCoordinator) : Result (gmap Z PyValue) :=
  api.async_get_latest_values transport (coordinator.api_client self)
    (coordinator.installation_id self) (coordinator.attribute_ids self)
    (coordinator.device_instance self).

(** The coordinator after a sequence of refresh cycles, one per transport
    behaviour, oldest first. *)
Definition refreshes `{Builtins} (transports : list api.Transport)
    (self : coordinator.VictronDataUpdateCoordinator)
    : coordinator.VictronDataUpdateCoordinator :=
  foldl (fun c transport => coordinator._async_refresh transport c) self
    transports.

(** The request of [async_get_site_details]. *)
Definition site_details_request (self : api.VictronApiClient)
    (installation_id : Z) : api.Request :=
  {| api.url := const.API_BASE_URL ++ "/installations/" ++ pretty installation_id;
     api.params := [];
     api.headers := api.client_headers self |}.

(** The payload of a batch fetch has the shape the client expects: an object
    whose "records" is an object whose "data" is an object. *)
Definition well_shaped (payload : list (string * PyValue))
    (items : list (string * PyValue)) : Prop :=
  exists records,
    items_get "records" payload = Some (VDict records)
    /\ items_get "data" records = Some (VDict items).

(** The "idSite" of an installation record, [None] when it has none. *)
Definition site_id (installation : PyValue) : PyValue :=
  match installation with
  | VDict d => default VNone (items_get "idSite" d)
  | _ => VNone
  end.

(** The "name" of an installation record, [None] when it has none. *)
Definition site_name (installation : PyValue) : PyValue :=
  match installation with
  | VDict d => default VNone (items_get "name" d)
  | _ => VNone
  end.

(** The value is a decoded JSON object. *)
Definition is_object (v : PyValue) : Prop := exists d, v = VDict d.

(** What one round of the loop of the installation step does to the options
    built so far; [str] is the builtin of that name. *)
Definition add_option (str : PyValue -> string) (options : gmap string PyValue)
    (installation : PyValue) : gmap string PyValue :=
  if is_none (site_id installation) then options
  else <[str (site_id installation)
         := py_or (site_name installation)
              (VStr ("Installation " ++ str (site_id installation)))]> options.

(** A key that the catalog has. *)
Definition known_key `{Builtins} (k : string) : Prop :=
  is_Some (sensors.SENSOR_MAP !! k).

(** A configured key that the catalog does not have. *)
Definition unknown_key `{Builtins} (k : string) : Prop :=
  sensors.SENSOR_MAP !! k = None.

(** ** Concrete inputs *)

Import PrimFloat.

Definition sample_entry : init.VictronConfigEntry :=
  {| init.conf_api_token := "token";
     init.conf_installation_id := 12345;
     init.conf_installation_name := None;
     init.conf_device_instance := None;
     init.options_sensors := Some ["no_such_metric"];
     init.options_scan_interval := None |}.

Definition sample_client : api.VictronApiClient := {| api._api_token := "token" |}.

(** A response that carries attribute 442 and not attribute 86. *)
Definition payload_442 : PyValue :=
  VDict [("success", VBool true);
         ("records",
          VDict [("data",
                  VDict [("442", VList [VList [VInt 1700000000; VFloat 120]])])])].

Definition transport_442 : api.Transport := fun _ => Return payload_442.

(** A remote side that answers every request with the HTTP status [status]. *)
Definition transport_status (status : Z) : api.Transport :=
  fun _ => Raise (mkExc ClientResponseError (Some status)).

(** A batch with 12.6 at attribute 81 (the nearest binary64 number, in
    hexadecimal) and 5.0 at attribute 82. *)
Definition batch_81_82 : gmap Z PyValue :=
  <[81 := VFloat 0x1.9333333333333p+3]> (<[82 := VFloat 5]> ∅).

(** The third descriptor of the catalog, [solar_current]. *)
Definition solar_current `{Builtins} : sensors.VictronSensorEntityDescription :=
  nth 2 sensors.SENSOR_DESCRIPTIONS (sensors.direct "" "" "" 0).

Definition sample_coordinator `{Builtins}
    : coordinator.VictronDataUpdateCoordinator :=
  init.new_coordinator sample_entry [86; 442] 60.

(** A batch with 120.0 at attribute 442 and 24.0 at attribute 86. *)
Definition batch_442_86 : gmap Z PyValue :=
  <[442 := VFloat 120]> (<[86 := VFloat 24]> ∅).

(** A batch with the integers 120 at attribute 442 and 24 at attribute 86,
    as a response with the literals [120] and [24] gives. *)
Definition batch_integers : gmap Z PyValue :=
  <[442 := VInt 120]> (<[86 := VInt 24]> ∅).

(** A response that carries attributes 442 and 81 and not attribute 86. *)
Definition payload_442_81 : PyValue :=
  VDict [("success", VBool true);
         ("records",
          VDict [("data",
                  VDict [("442", VList [VList [VInt 1700000000; VFloat 120]]);
                         ("81", VList [VList [VInt 1700000000; VFloat 13]])])])].

Definition transport_442_81 : api.Transport := fun _ => Return payload_442_81.

(** The first descriptor of the catalog, [solar_power]. *)
Definition solar_power `{Builtins} : sensors.VictronSensorEntityDescription :=
  nth 0 sensors.SENSOR_DESCRIPTIONS (sensors.direct "" "" "" 0).

(** What the options form delivers when the user picks one known and one
    unknown metric and an interval of 45 seconds. *)
Definition sample_options_input : config_flow.OptionsInput :=
  {| config_flow.input_sensors :=
       config_flow.sensors_list ["solar_power"; "no_such_metric"];
     config_flow.input_scan_interval := Some (VInt 45) |}.

Definition sample_options_entry : init.VictronConfigEntry :=
  {| init.conf_api_token := "token";
     init.conf_installation_id := 12345;
     init.conf_installation_name := None;
     init.conf_device_instance := None;
     init.options_sensors := Some ["solar_power"];
     init.options_scan_interval := Some 45 |}.

(** Two installation records, the second without a name. *)
Definition sample_installations : list PyValue :=
  [VDict [("idSite", VInt 12345); ("name", VStr "Boat")];
   VDict [("idSite", VInt 678)]].

(** A stand-in for the builtin [str] that agrees with it on [None], booleans,
    integers and strings, which is all the concrete inputs hold. *)
Definition text_of (v : PyValue) : string :=
  match v with
  | VNone => "None"
  | VBool true => "True"
  | VBool false => "False"
  | VInt z => pretty z
  | VStr s => s
  | _ => ""
  end.

(** What the setup of [sample_entry] returns when the remote side answers
    with [payload_442]: the whole catalog, on a coordinator that has run its
    first refresh. *)
Definition sample_runtime_data `{Builtins} : init.VictronRuntimeData :=
  {| init.runtime_coordinator :=
       coordinator._async_refresh transport_442
         (init.new_coordinator sample_entry
            (init.attribute_ids sensors.SENSOR_DESCRIPTIONS) 60);
     init.runtime_descriptions := sensors.SENSOR_DESCRIPTIONS |}.

(** * Properties *)

Local Open Scope list_scope.

(** ** Python builtins *)

Section BuiltinFacts.
Context `{Builtins}.

Lemma is_none_true v : is_none v = true <-> v = VNone.
Proof. destruct v; simpl; split; congruence. Qed.

Lemma is_none_false v : is_none v = false <-> v <> VNone.
Proof. destruct v; simpl; split; congruence. Qed.

Lemma py_float_None : py_float VNone = raise TypeError.
Proof. reflexivity. Qed.

(** [float(v)] returns or raises one of three exceptions. *)
Lemma py_float_cases v :
  (exists x, py_float v = Return x) \/ py_float v = raise TypeError
  \/ py_float v = raise ValueError \/ py_float v = raise OverflowError.
Proof.
  destruct v; simpl; eauto;
    repeat match goal with |- context [match ?o with _ => _ end] =>
      destruct o end; eauto.
Qed.

Lemma not_convertible_cases v :
  ~ convertible v -> ~ overflows v ->
  py_float v = raise TypeError \/ py_float v = raise ValueError.
Proof.
  intros Hc Ho. destruct (py_float_cases v) as [[x Hx]|[?|[?|?]]]; auto.
  - exfalso. apply Hc. by exists x.
  - contradiction.
Qed.

(** [int(str)] returns or raises [ValueError]. *)
Lemma py_int_str s :
  py_int (VStr s) = match int_of_str s with
                    | Some k => Return k
                    | None => raise ValueError
                    end.
Proof. reflexivity. Qed.
End BuiltinFacts.

(** ** Derivation functions of the catalog *)

Section Derivations.
Context `{Builtins}.

Lemma eq_zero_float v :
  eq_zero v = true -> exists y, py_float v = Return y /\ (y =? zero)%float = true.
Proof.
  destruct v as [|[]|z|f| | |]; simpl; try discriminate; intros Hz.
  - by exists zero.
  - apply Z.eqb_eq in Hz. subst z. by exists zero.
  - by exists f.
Qed.

Lemma try_except_return {A} (a : A) clauses :
  try_except (Return a) clauses = Return a.
Proof. reflexivity. Qed.

Lemma ratio_without_overflow (numerator denominator : Z)
    (data : gmap Z PyValue) :
  ~ overflows (get data numerator) ->
  ~ overflows (get data denominator) ->
  (sensors._calculate_ratio numerator denominator data = Return VNone <->
     ~ convertible (get data numerator)
     \/ ~ convertible (get data denominator)
     \/ exists y, py_float (get data denominator) = Return y
                  /\ (y =? zero)%float = true)
  /\ (forall x y,
        py_float (get data numerator) = Return x ->
        py_float (get data denominator) = Return y ->
        (y =? zero)%float = false ->
        sensors._calculate_ratio numerator denominator data
        = Return (VFloat (x / y))).
Proof.
  unfold sensors._calculate_ratio.
  generalize (get data numerator), (get data denominator).
  intros num den Hn Hd. cbv zeta.
  destruct (is_none num) eqn:En; simpl.
  { apply is_none_true in En. split.
    - split; [intros _|done]. left. rewrite En. intros [x Hx]. discriminate.
    - intros x y Hx. rewrite En in Hx. discriminate. }
  destruct (is_none den) eqn:Ed; simpl.
  { apply is_none_true in Ed. split.
    - split; [intros _|done]. right; left. rewrite Ed. intros [x Hx].
      discriminate.
    - intros x y _ Hy. rewrite Ed in Hy. discriminate. }
  destruct (eq_zero den) eqn:Ez.
  { destruct (eq_zero_float _ Ez) as (y0 & Hy0 & Hz0). split.
    - split; [intros _|done]. right; right. eauto.
    - intros x y _ Hy Hnz. congruence. }
  destruct (py_float_cases num) as [[x Hx]|Hx].
  - destruct (py_float_cases den) as [[y Hy]|Hy].
    + rewrite Hx, Hy. simpl. unfold truediv.
      destruct (y =? zero)%float eqn:Hz; simpl.
      * split; [|intros ? ? [= <-] [= <-]; congruence].
        split; [intros _|done]. right; right. eauto.
      * split; [|by intros ? ? [= <-] [= <-] _].
        split; [discriminate|].
        intros [Hc|[Hc|(y' & Hy' & Hz')]].
        -- exfalso. apply Hc. by exists x.
        -- exfalso. apply Hc. by exists y.
        -- congruence.
    + assert (~ convertible den) as Hc.
      { intros [y Hy']. unfold raise in *.
        destruct Hy as [Hy|[Hy|Hy]]; congruence. }
      destruct (not_convertible_cases _ Hc Hd) as [Hy'|Hy'];
        rewrite Hx, Hy'; simpl;
        (split; [split; [auto|done] | intros ? ? _ Hy2; unfold raise in *; congruence]).
  - assert (~ convertible num) as Hc.
    { intros [y Hy']. unfold raise in *.
      destruct Hx as [Hx|[Hx|Hx]]; congruence. }
    destruct (not_convertible_cases _ Hc Hn) as [Hx'|Hx'];
      rewrite Hx'; simpl;
      (split; [split; [auto|done] | intros ? ? Hx2; unfold raise in *; congruence]).
Qed.

(** X1: the ratio when no input is an integer too large for a binary64
    number: it is null exactly when an input does not convert to a float or
    the converted denominator is zero, and the quotient of the converted
    inputs otherwise. *)
Lemma ratio_value (numerator denominator : Z) (data : gmap Z PyValue) :
  ~ overflows (get data numerator) ->
  ~ overflows (get data denominator) ->
  (sensors._calculate_ratio numerator denominator data = Return VNone <->
     ~ convertible (get data numerator)
     \/ ~ convertible (get data denominator)
     \/ exists y, py_float (get data denominator) = Return y
                  /\ (y =? zero)%float = true)
  /\ (forall x y,
        py_float (get data numerator) = Return x ->
        py_float (get data denominator) = Return y ->
        (y =? zero)%float = false ->
        sensors._calculate_ratio numerator denominator data
        = Return (VFloat (x / y))).
Proof. apply ratio_without_overflow. Qed.

(** A null numerator, a null denominator or a denominator equal to zero
    gives null, whatever the other input is. *)
Lemma ratio_null (numerator denominator : Z) (data : gmap Z PyValue) :
  get data numerator = VNone \/ get data denominator = VNone
  \/ eq_zero (get data denominator) = true ->
  sensors._calculate_ratio numerator denominator data = Return VNone.
Proof.
  unfold sensors._calculate_ratio. intros [Hn|[Hd|Hz]].
  - by rewrite Hn.
  - rewrite Hd. simpl. by rewrite orb_true_r.
  - rewrite Hz. by rewrite !orb_true_r.
Qed.

(** The function on a dictionary that holds an integer too large for a
    binary64 number (here 10^400) as numerator, with a denominator of 1: it
    raises [OverflowError], which the [except] clause of [_calculate_ratio]
    does not name. No decoded batch holds such an integer. *)
Lemma ratio_raises_on_large_integer :
  let data : gmap Z PyValue := <[442 := VInt (10 ^ 400)]> (<[86 := VInt 1]> ∅) in
  is_none (get data 442) = false
  /\ is_none (get data 86) = false
  /\ eq_zero (get data 86) = false
  /\ sensors._calculate_ratio 442 86 data = raise OverflowError
  /\ ~ returns (sensors._calculate_ratio 442 86 data).
Proof.
  assert (sensors._calculate_ratio 442 86
            (<[442 := VInt (10 ^ 400)]> (<[86 := VInt 1]> ∅))
          = raise OverflowError) as E by (vm_compute; reflexivity).
  cbv zeta. do 3 (split; [vm_compute; reflexivity|]).
  split; [exact E|]. rewrite E. intros [v Hv]. discriminate.
Qed.

(** C3, as the code has it: when neither input is an integer too large for
    a binary64 number, the product is null exactly when one of the inputs
    does not convert to a float (it is null, an unparsable string or not a
    scalar), and the product of the converted inputs otherwise. *)
Theorem product_value (factor_a factor_b : Z) (data : gmap Z PyValue) :
  ~ overflows (get data factor_a) ->
  ~ overflows (get data factor_b) ->
  (sensors._calculate_product factor_a factor_b data = Return VNone <->
     ~ convertible (get data factor_a) \/ ~ convertible (get data factor_b))
  /\ (get data factor_a = VNone \/ get data factor_b = VNone ->
      sensors._calculate_product factor_a factor_b data = Return VNone)
  /\ (forall x y,
        py_float (get data factor_a) = Return x ->
        py_float (get data factor_b) = Return y ->
        sensors._calculate_product factor_a factor_b data
        = Return (VFloat (x * y))).
Proof.
  unfold sensors._calculate_product.
  generalize (get data factor_a), (get data factor_b).
  intros a b Ha Hb. cbv zeta.
  destruct (is_none a) eqn:Ea; simpl.
  { apply is_none_true in Ea. subst a. repeat split; auto.
    - intros _. left. intros [x Hx]. discriminate.
    - intros x y Hx. discriminate. }
  destruct (is_none b) eqn:Eb; simpl.
  { apply is_none_true in Eb. subst b. repeat split; auto.
    - intros _. right. intros [x Hx]. discriminate.
    - intros x y _ Hy. discriminate. }
  apply is_none_false in Ea, Eb.
  destruct (py_float_cases a) as [[x Hx]|Hx].
  - destruct (py_float_cases b) as [[y Hy]|Hy].
    + rewrite Hx, Hy. simpl. repeat split.
      * discriminate.
      * intros [Hc|Hc]; exfalso; apply Hc; [by exists x|by exists y].
      * intros [?|?]; contradiction.
      * by intros ? ? [= <-] [= <-].
    + assert (~ convertible b) as Hc.
      { intros [y Hy']. unfold raise in *.
        destruct Hy as [Hy|[Hy|Hy]]; congruence. }
      destruct (not_convertible_cases _ Hc Hb) as [Hy'|Hy'];
        rewrite Hx, Hy'; simpl; repeat split; auto;
        intros ? ? _ Hy2; unfold raise in *; congruence.
  - assert (~ convertible a) as Hc.
    { intros [y Hy']. unfold raise in *.
      destruct Hx as [Hx|[Hx|Hx]]; congruence. }
    destruct (not_convertible_cases _ Hc Ha) as [Hx'|Hx'];
      rewrite Hx'; simpl; repeat split; auto;
      intros ? ? Hx2; unfold raise in *; congruence.
Qed.

(** The product raises as the ratio does on an integer too large for a
    binary64 number. *)
Lemma product_raises_on_large_integer :
  sensors._calculate_product 81 82
    (<[81 := VInt (10 ^ 400)]> (<[82 := VFloat 5]> ∅))
  = raise OverflowError.
Proof. vm_compute. reflexivity. Qed.

Lemma map_state_int (mapping : gmap Z string) (a k : Z) (data : gmap Z PyValue) :
  sensors._map_state mapping a (<[a := VInt k]> data)
  = Return (VStr (default "Unknown" (mapping !! k))).
Proof.
  unfold sensors._map_state, get. by rewrite lookup_insert_eq.
Qed.

Lemma map_state_null (mapping : gmap Z string) (a : Z) (data : gmap Z PyValue) :
  get data a = VNone -> sensors._map_state mapping a data = Return VNone.
Proof. unfold sensors._map_state. by intros ->. Qed.

(** C4: the [battery_state] descriptor of the catalog reads attribute 85
    through the battery state table; on every batch whose attribute 85 is
    the integer 3 its value is "Bulk", on every batch whose attribute 85 is
    999 its value is "Unknown", and on every batch where attribute 85 is
    null or missing its value is null. *)
Theorem battery_state_lookup (data : gmap Z PyValue) :
  exists description,
    sensors.SENSOR_MAP !! "battery_state" = Some description
    /\ sensors.attribute_id description = Some 85
    /\ sensors.value_fn description
       = Some (fun data => sensors._map_state sensors.BATTERY_STATE_MAP 85 data)
    /\ sensors._map_state sensors.BATTERY_STATE_MAP 85 (<[85 := VInt 3]> data)
       = Return (VStr "Bulk")
    /\ sensors._map_state sensors.BATTERY_STATE_MAP 85 (<[85 := VInt 999]> data)
       = Return (VStr "Unknown")
    /\ sensors._map_state sensors.BATTERY_STATE_MAP 85 (<[85 := VNone]> data)
       = Return VNone
    /\ sensors._map_state sensors.BATTERY_STATE_MAP 85 (delete 85 data)
       = Return VNone.
Proof.
  exists (nth 5 sensors.SENSOR_DESCRIPTIONS (sensors.direct "" "" "" 0)).
  split; [reflexivity|].
  split; [reflexivity|]. split; [reflexivity|].
  rewrite !map_state_int.
  split; [reflexivity|]. split; [reflexivity|].
  split; apply map_state_null; unfold get.
  - by rewrite lookup_insert_eq.
  - by rewrite lookup_delete_eq.
Qed.
End Derivations.

(** ** Extraction of the latest values *)

Section ExtractionFacts.
Context `{Builtins}.

Lemma latest_value_last (series : list PyValue) (t v : PyValue) rest :
  api.latest_value (VList (series ++ [VList (t :: v :: rest)])) = v.
Proof. unfold api.latest_value. by rewrite last_snoc. Qed.

Lemma latest_value_not_point (series : list PyValue) (entry : PyValue) :
  ~ is_point entry -> api.latest_value (VList (series ++ [entry])) = VNone.
Proof.
  intros Hp. unfold api.latest_value. rewrite last_snoc.
  destruct entry as [| | | | |[|t [|v rest]]|]; simpl in *; tauto.
Qed.

Lemma extract_foldl items (acc : gmap Z PyValue) :
  api.extract items acc = Return (foldl store_latest acc items).
Proof.
  revert acc. induction items as [|[k values] items IH]; intros acc.
  - reflexivity.
  - simpl. unfold store_latest at 2. simpl.
    destruct (int_of_str k) as [a|]; simpl; apply IH.
Qed.

Lemma store_latest_other (a : Z) items (acc : gmap Z PyValue) :
  Forall (fun item => ~ parses_to a item) items ->
  foldl store_latest acc items !! a = acc !! a.
Proof.
  intros Hall. revert acc.
  induction Hall as [|[k values] items Hk _ IH]; intros acc; [done|].
  simpl. rewrite IH. unfold store_latest, parses_to in *. simpl in *.
  destruct (int_of_str k) as [b|]; [|done].
  rewrite lookup_insert_ne; [done|congruence].
Qed.

Lemma store_latest_last (a : Z) before k values after (acc : gmap Z PyValue) :
  int_of_str k = Some a ->
  Forall (fun item => ~ parses_to a item) after ->
  foldl store_latest acc (before ++ (k, values) :: after) !! a
  = Some (api.latest_value values).
Proof.
  intros Hk Hafter. rewrite foldl_app. simpl.
  rewrite store_latest_other by done.
  unfold store_latest. simpl. rewrite Hk. apply lookup_insert_eq.
Qed.

Lemma store_latest_skip before k values after (acc : gmap Z PyValue) :
  int_of_str k = None ->
  foldl store_latest acc (before ++ (k, values) :: after)
  = foldl store_latest acc (before ++ after).
Proof.
  intros Hk. rewrite !foldl_app. simpl. unfold store_latest at 2. simpl.
  by rewrite Hk.
Qed.

Lemma store_latest_keys (a : Z) items (acc : gmap Z PyValue) :
  is_Some (foldl store_latest acc items !! a)
  <-> is_Some (acc !! a) \/ Exists (parses_to a) items.
Proof.
  revert acc. induction items as [|[k values] items IH]; intros acc; simpl.
  - rewrite Exists_nil. tauto.
  - rewrite IH, Exists_cons. unfold store_latest, parses_to. simpl.
    destruct (int_of_str k) as [b|].
    + destruct (decide (b = a)) as [->|Hne].
      * rewrite lookup_insert_eq. split; [|eauto]. intros _. right. by left.
      * rewrite lookup_insert_ne by done. split.
        -- intros [?|?]; auto.
        -- intros [?|[?|?]]; auto. congruence.
    + split; [intros [?|?]; auto|intros [?|[?|?]]; auto; discriminate].
Qed.

(** On a payload of the expected shape the call returns the batch the loop
    builds from the items of [data]. *)
Lemma latest_values_of_payload transport self iid ids dev payload records items :
  transport (api.latest_values_request self iid ids dev) = Return (VDict payload) ->
  items_get "records" payload = Some (VDict records) ->
  items_get "data" records = Some (VDict items) ->
  api.async_get_latest_values transport self iid ids dev
  = Return (foldl store_latest ∅ items).
Proof.
  intros Ht Hr Hd. unfold api.async_get_latest_values.
  rewrite Ht. simpl. rewrite Hr. simpl. rewrite Hd. simpl.
  apply extract_foldl.
Qed.

(** C5: on a response of the expected shape the call returns a batch in
    which every attribute holds the second component of the last entry of
    its series, whatever the timestamps are and whatever entries precede
    it; an attribute whose series is empty holds null, and an attribute
    the response does not mention reads as null. When several keys of the
    response denote the same attribute id, the last of them counts. *)
Theorem latest_value_is_last_entry transport self iid ids dev
    payload records items :
  transport (api.latest_values_request self iid ids dev) = Return (VDict payload) ->
  items_get "records" payload = Some (VDict records) ->
  items_get "data" records = Some (VDict items) ->
  exists batch,
    api.async_get_latest_values transport self iid ids dev = Return batch
    /\ (forall before k series t v rest after a,
          items = before ++ (k, VList (series ++ [VList (t :: v :: rest)])) :: after ->
          int_of_str k = Some a ->
          Forall (fun item => ~ parses_to a item) after ->
          batch !! a = Some v /\ get batch a = v)
    /\ (forall before k after a,
          items = before ++ (k, VList []) :: after ->
          int_of_str k = Some a ->
          Forall (fun item => ~ parses_to a item) after ->
          batch !! a = Some VNone /\ get batch a = VNone)
    /\ (forall a,
          Forall (fun item => ~ parses_to a item) items ->
          batch !! a = None /\ get batch a = VNone)
    /\ (forall t1 v1 t2 v2 t3 v3,
          api.latest_value
            (VList [VList [t1; v1]; VList [t2; v2]; VList [t3; v3]]) = v3).
Proof.
  intros Ht Hr Hd. eexists. split.
  { by eapply latest_values_of_payload. }
  repeat split.
  - subst items. rewrite store_latest_last by done.
    by rewrite latest_value_last.
  - subst items. unfold get. rewrite store_latest_last by done.
    by rewrite latest_value_last.
  - subst items. by rewrite store_latest_last.
  - subst items. unfold get. by rewrite store_latest_last.
  - by rewrite store_latest_other.
  - unfold get. by rewrite store_latest_other.
Qed.

(** C10: the extraction loop returns on every list of items; an item whose
    key does not parse as an integer changes nothing, so that the keys of
    the batch are exactly the attribute ids some key parses to; and a
    series whose last entry is not a list of at least two elements leaves
    null at its attribute. On every payload of the expected shape the
    whole call therefore returns. *)
Theorem extraction_is_total (items : list (string * PyValue)) :
  (exists batch, api.extract items ∅ = Return batch
     /\ forall a, is_Some (batch !! a) <-> Exists (parses_to a) items)
  /\ (forall before k values after,
        items = before ++ (k, values) :: after ->
        int_of_str k = None ->
        api.extract items ∅ = api.extract (before ++ after) ∅)
  /\ (forall before k series entry after a batch,
        items = before ++ (k, VList (series ++ [entry])) :: after ->
        ~ is_point entry ->
        int_of_str k = Some a ->
        Forall (fun item => ~ parses_to a item) after ->
        api.extract items ∅ = Return batch ->
        batch !! a = Some VNone)
  /\ (forall transport self iid ids dev payload records,
        transport (api.latest_values_request self iid ids dev)
        = Return (VDict payload) ->
        items_get "records" payload = Some (VDict records) ->
        items_get "data" records = Some (VDict items) ->
        returns (api.async_get_latest_values transport self iid ids dev)).
Proof.
  repeat split.
  - exists (foldl store_latest ∅ items). split; [apply extract_foldl|].
    intros a. rewrite store_latest_keys, lookup_empty.
    split; [intros [[? ?]|?]; [discriminate|done]|auto].
  - intros before k values after -> Hk.
    rewrite !extract_foldl. by rewrite store_latest_skip.
  - intros before k series entry after a batch -> Hp Hk Hafter.
    rewrite extract_foldl. intros [= <-].
    rewrite store_latest_last by done. by rewrite latest_value_not_point.
  - intros transport self iid ids dev payload records Ht Hr Hd.
    eexists. by eapply latest_values_of_payload.
Qed.
End ExtractionFacts.

(** ** Classification of HTTP failures *)

Section Classification.
Context `{Builtins}.

Lemma http_clauses_auth (err : PyExc) :
  auth_status err ->
  try_except (Raise err) api.http_clauses = raise VictronApiAuthError.
Proof.
  intros [Hc Hs]. destruct err as [c s]. simpl in *. subst c.
  unfold api.status_in. simpl. by destruct Hs as [->| ->].
Qed.

Lemma http_clauses_other (err : PyExc) :
  client_failure err -> ~ auth_status err ->
  try_except (Raise err) api.http_clauses = raise VictronApiError.
Proof.
  unfold client_failure, auth_status. destruct err as [c s]. simpl.
  intros Hc Hna. destruct c; try discriminate; [done|].
  simpl. unfold api.status_in. simpl. destruct s as [s|]; [|done].
  case_bool_decide as Hin; [|done]. exfalso. apply Hna. split; [done|].
  apply elem_of_cons in Hin as [->|Hin]; [by left|].
  apply list_elem_of_singleton in Hin as ->. by right.
Qed.

End Classification.


(** ** The refresh cycle *)

Section Refresh.
Context `{Builtins}.

Lemma update_data_auth transport self err :
  gateway_call transport self = Raise err ->
  isinstance err VictronApiAuthError = true ->
  coordinator._async_update_data transport self = raise ConfigEntryAuthFailed.
Proof.
  unfold gateway_call, coordinator._async_update_data.
  intros -> Ha. cbn [try_except handle existsb]. by rewrite Ha.
Qed.

Lemma update_data_failed transport self err :
  gateway_call transport self = Raise err ->
  isinstance err VictronApiError = true ->
  isinstance err VictronApiAuthError = false ->
  coordinator._async_update_data transport self = raise UpdateFailed.
Proof.
  unfold gateway_call, coordinator._async_update_data.
  intros -> Ha Hna. cbn [try_except handle existsb]. by rewrite Hna, Ha.
Qed.

Lemma update_data_success transport self batch :
  gateway_call transport self = Return batch ->
  coordinator._async_update_data transport self = Return batch.
Proof.
  unfold gateway_call, coordinator._async_update_data. by intros ->.
Qed.

(** C8: in a refresh cycle, an authentication error of the gateway makes
    [_async_update_data] raise [ConfigEntryAuthFailed]: the cached batch
    stays, a re-authentication is started and no further refresh is
    scheduled. Any other [VictronApiError] makes it raise [UpdateFailed]: the
    cached batch stays and the next refresh is scheduled after the same
    interval. A batch the gateway returns replaces the cached batch as a
    whole. The two exceptions are of different classes. *)
Theorem refresh_cycle_outcomes transport
    (self : coordinator.VictronDataUpdateCoordinator) :
  (forall err,
     gateway_call transport self = Raise err ->
     isinstance err VictronApiAuthError = true ->
     coordinator._async_update_data transport self = raise ConfigEntryAuthFailed
     /\ coordinator.data (coordinator._async_refresh transport self)
        = coordinator.data self
     /\ coordinator.last_update_success (coordinator._async_refresh transport self)
        = false
     /\ coordinator.reauth_started (coordinator._async_refresh transport self)
        = true
     /\ coordinator.refresh_scheduled (coordinator._async_refresh transport self)
        = false)
  /\ (forall err,
     gateway_call transport self = Raise err ->
     isinstance err VictronApiError = true ->
     isinstance err VictronApiAuthError = false ->
     coordinator._async_update_data transport self = raise UpdateFailed
     /\ coordinator.data (coordinator._async_refresh transport self)
        = coordinator.data self
     /\ coordinator.last_update_success (coordinator._async_refresh transport self)
        = false
     /\ coordinator.reauth_started (coordinator._async_refresh transport self)
        = coordinator.reauth_started self
     /\ coordinator.refresh_scheduled (coordinator._async_refresh transport self)
        = true
     /\ coordinator.update_interval (coordinator._async_refresh transport self)
        = coordinator.update_interval self)
  /\ (forall batch,
     gateway_call transport self = Return batch ->
     coordinator._async_update_data transport self = Return batch
     /\ coordinator.data (coordinator._async_refresh transport self) = batch
     /\ coordinator.last_update_success (coordinator._async_refresh transport self)
        = true
     /\ coordinator.refresh_scheduled (coordinator._async_refresh transport self)
        = true)
  /\ isinstance (mkExc ConfigEntryAuthFailed None) UpdateFailed = false
  /\ isinstance (mkExc UpdateFailed None) ConfigEntryAuthFailed = false.
Proof.
  split; [|split; [|split; [|done]]].
  - intros err Hg Ha. pose proof (update_data_auth _ _ _ Hg Ha) as Hu.
    split; [done|]. unfold coordinator._async_refresh. rewrite Hu. simpl.
    by rewrite orb_true_r.
  - intros err Hg Ha Hna. pose proof (update_data_failed _ _ _ Hg Ha Hna) as Hu.
    split; [done|]. unfold coordinator._async_refresh. rewrite Hu. simpl.
    by rewrite orb_false_r.
  - intros batch Hg. pose proof (update_data_success _ _ _ Hg) as Hu.
    split; [done|]. unfold coordinator._async_refresh. by rewrite Hu.
Qed.
End Refresh.

(** ** The active descriptors and the attribute ids they need *)

Section SetupFacts.
Context `{Builtins}.

Lemma catalog_lookup_None (l : list sensors.VictronSensorEntityDescription)
    (m : gmap string sensors.VictronSensorEntityDescription) (k : string) :
  foldl (fun m d => <[sensors.key d := d]> m) m l !! k = None
  <-> m !! k = None /\ k ∉ map sensors.key l.
Proof.
  revert m. induction l as [|d l IH]; intros m; simpl.
  - split; [intros ?; split; [done|apply not_elem_of_nil]|tauto].
  - rewrite IH, lookup_insert_None, not_elem_of_cons. clear IH.
    intuition congruence.
Qed.

Lemma unknown_key_default (k : string) :
  unknown_key k <-> k ∉ sensors.DEFAULT_SENSOR_KEYS.
Proof.
  unfold unknown_key, sensors.SENSOR_MAP, sensors.DEFAULT_SENSOR_KEYS.
  rewrite catalog_lookup_None, lookup_empty. tauto.
Qed.

Lemma lookup_keys_unknown (keys : list string) :
  Forall unknown_key keys -> init.lookup_keys keys = [].
Proof.
  unfold init.lookup_keys. induction 1 as [|k keys Hk _ IH]; [done|].
  simpl. unfold unknown_key in Hk. by rewrite Hk.
Qed.

Lemma lookup_keys_known (keys : list string) :
  Exists (fun k => ~ unknown_key k) keys -> init.lookup_keys keys <> [].
Proof.
  unfold init.lookup_keys, unknown_key.
  induction 1 as [k keys Hk|k keys _ IH]; simpl.
  - destruct (sensors.SENSOR_MAP !! k); [done|by destruct Hk].
  - destruct (sensors.SENSOR_MAP !! k); [done|exact IH].
Qed.

Lemma lookup_keys_default :
  init.lookup_keys sensors.DEFAULT_SENSOR_KEYS = sensors.SENSOR_DESCRIPTIONS.
Proof. reflexivity. Qed.

Lemma index_keys_default :
  init.index_keys sensors.DEFAULT_SENSOR_KEYS = Return sensors.SENSOR_DESCRIPTIONS.
Proof. reflexivity. Qed.

(** C9: the active descriptors are the catalog entries of the configured
    keys, in the configured order, with the keys the catalog lacks left out;
    when the option is not set, or lists no key, or lists only keys the
    catalog lacks, they are the whole catalog in its declared order. The
    computation never raises and never gives an empty list. *)
Theorem active_descriptions_fallback (entry : init.VictronConfigEntry) :
  (init.options_sensors entry = None ->
     init.descriptions entry = Return sensors.SENSOR_DESCRIPTIONS)
  /\ (forall keys,
        init.options_sensors entry = Some keys ->
        Forall unknown_key keys ->
        init.descriptions entry = Return sensors.SENSOR_DESCRIPTIONS)
  /\ (forall keys,
        init.options_sensors entry = Some keys ->
        Exists (fun k => ~ unknown_key k) keys ->
        init.descriptions entry = Return (init.lookup_keys keys)
        /\ forall d, d ∈ init.lookup_keys keys
                     <-> exists k, k ∈ keys /\ sensors.SENSOR_MAP !! k = Some d)
  /\ (forall before k after,
        unknown_key k ->
        init.lookup_keys (before ++ k :: after)
        = init.lookup_keys (before ++ after))
  /\ map sensors.key sensors.SENSOR_DESCRIPTIONS = sensors.DEFAULT_SENSOR_KEYS
  /\ (forall k, unknown_key k <-> k ∉ sensors.DEFAULT_SENSOR_KEYS)
  /\ (exists ds, init.descriptions entry = Return ds /\ ds <> []).
Proof.
  assert (forall keys,
            Forall unknown_key keys ->
            match init.lookup_keys keys with
            | [] => init.index_keys sensors.DEFAULT_SENSOR_KEYS
            | _ :: _ => Return (init.lookup_keys keys)
            end = Return sensors.SENSOR_DESCRIPTIONS) as Hfall.
  { intros keys Hu. rewrite (lookup_keys_unknown _ Hu).
    apply index_keys_default. }
  assert (forall keys,
            init.lookup_keys keys <> [] ->
            match init.lookup_keys keys with
            | [] => init.index_keys sensors.DEFAULT_SENSOR_KEYS
            | _ :: _ => Return (init.lookup_keys keys)
            end = Return (init.lookup_keys keys)) as Hkeep.
  { intros keys Hne. by destruct (init.lookup_keys keys). }
  unfold init.descriptions, init.selected_keys.
  split; [|split; [|split; [|split; [|split; [|split]]]]].
  - intros ->. cbn [from_option id]. rewrite lookup_keys_default. reflexivity.
  - intros keys -> Hu. cbn [from_option id]. by apply Hfall.
  - intros keys -> Hk. cbn [from_option id]. split.
    + apply Hkeep. by apply lookup_keys_known.
    + intros d. unfold init.lookup_keys. apply list_elem_of_omap.
  - intros before k after Hk. unfold init.lookup_keys.
    rewrite !omap_app. simpl. unfold unknown_key in Hk. by rewrite Hk.
  - reflexivity.
  - apply unknown_key_default.
  - destruct (init.options_sensors entry) as [keys|]; cbn [from_option id].
    + destruct (init.lookup_keys keys) as [|d ds] eqn:E.
      * exists sensors.SENSOR_DESCRIPTIONS. split; [apply index_keys_default|done].
      * by exists (d :: ds).
    + rewrite lookup_keys_default. by exists sensors.SENSOR_DESCRIPTIONS.
Qed.

Lemma attribute_ids_elem (descs : list sensors.VictronSensorEntityDescription)
    (a : Z) :
  a ∈ init.attribute_ids descs <-> exists d, d ∈ descs /\ depends_on d a.
Proof.
  unfold init.attribute_ids, init.sorted, depends_on.
  rewrite merge_sort_Permutation, elem_of_elements, elem_of_list_to_set,
    elem_of_app, list_elem_of_omap, (list_elem_of_In _ a), in_concat.
  split.
  - intros [(d & Hd & Ha)|(l & Hl & Ha)].
    + exists d. auto.
    + apply in_map_iff in Hl as (d & <- & Hd).
      exists d. split; [by apply list_elem_of_In|right; by apply list_elem_of_In].
  - intros (d & Hd & [Ha|Ha]).
    + left. by exists d.
    + right. exists (sensors.requires d). split.
      * apply in_map. by apply list_elem_of_In.
      * by apply list_elem_of_In.
Qed.


Lemma catalog_available_fn (d : sensors.VictronSensorEntityDescription) :
  d ∈ sensors.SENSOR_DESCRIPTIONS -> sensors.available_fn d = None.
Proof.
  unfold sensors.SENSOR_DESCRIPTIONS. rewrite !elem_of_cons, elem_of_nil.
  intros Hd. repeat (destruct Hd as [->|Hd]; [reflexivity|]). destruct Hd.
Qed.

Lemma catalog_derived (d : sensors.VictronSensorEntityDescription) :
  d ∈ sensors.SENSOR_DESCRIPTIONS -> sensors.attribute_id d = None ->
  is_Some (sensors.value_fn d) /\ sensors.requires d <> [].
Proof.
  unfold sensors.SENSOR_DESCRIPTIONS. rewrite !elem_of_cons, elem_of_nil.
  intros Hd.
  repeat (destruct Hd as [->|Hd];
          [simpl; intros ?; (discriminate || (split; [eauto|done]))|]).
  destruct Hd.
Qed.

(** C1, as the code has it: a descriptor of the catalog without an attribute
    id carries a derivation function and no availability function, and a
    sensor for it is available exactly when the coordinator's last update
    succeeded, whatever the cached batch holds and whatever the derivation
    function returns on it; after a refresh in which the gateway returned a
    batch the sensor is available, whether or not the batch has the
    attributes the derivation needs. *)
Theorem derived_available_follows_coordinator
    (d : sensors.VictronSensorEntityDescription) :
  d ∈ sensors.SENSOR_DESCRIPTIONS ->
  sensors.attribute_id d = None ->
  is_Some (sensors.value_fn d)
  /\ sensors.available_fn d = None
  /\ (forall c,
        sensors.available
          {| sensors.coordinator := c; sensors.entity_description := d |}
        = coordinator.last_update_success c)
  /\ (forall transport c batch,
        gateway_call transport c = Return batch ->
        sensors.available
          {| sensors.coordinator := coordinator._async_refresh transport c;
             sensors.entity_description := d |}
        = true).
Proof.
  intros Hin Hid. pose proof (catalog_available_fn _ Hin) as Hav.
  split; [by apply catalog_derived|]. split; [done|].
  assert (forall c,
            sensors.available
              {| sensors.coordinator := c; sensors.entity_description := d |}
            = coordinator.last_update_success c) as Hflag.
  { intros c. unfold sensors.available. cbn [sensors.entity_description].
    by rewrite Hav, Hid. }
  split; [exact Hflag|].
  intros transport c batch Hg. rewrite Hflag.
  unfold coordinator._async_refresh.
  by rewrite (update_data_success _ _ _ Hg).
Qed.
End SetupFacts.


(** ** The code on concrete inputs *)

Section OnInputs.
#[local] Existing Instance decimal_builtins.

Lemma solar_current_in_catalog : solar_current ∈ sensors.SENSOR_DESCRIPTIONS.
Proof.
  unfold solar_current, sensors.SENSOR_DESCRIPTIONS. simpl nth.
  rewrite !elem_of_cons. right; right; left. reflexivity.
Defined.

(** C1 fails on the code: after a successful refresh whose response carries
    attribute 442 and not attribute 86, the value of [solar_current] is null
    and the sensor is available. *)
Lemma solar_current_available_without_voltage :
  sensors.SENSOR_MAP !! "solar_current" = Some solar_current
  /\ sensors.attribute_id solar_current = None
  /\ coordinator.data (coordinator._async_refresh transport_442 sample_coordinator)
     !! 86 = None
  /\ sensors.native_value
       {| sensors.coordinator :=
            coordinator._async_refresh transport_442 sample_coordinator;
          sensors.entity_description := solar_current |}
     = Return VNone
  /\ sensors.available
       {| sensors.coordinator :=
            coordinator._async_refresh transport_442 sample_coordinator;
          sensors.entity_description := solar_current |}
     = true.
Proof.
  split; [reflexivity|]. split; [reflexivity|].
  repeat split; vm_compute; reflexivity.
Qed.

Lemma derived_available_witness :
  sensors.available
    {| sensors.coordinator :=
         coordinator._async_refresh (transport_status 500) sample_coordinator;
       sensors.entity_description := solar_current |}
  = false.
Proof.
  exact (proj1 (proj2 (proj2
    (derived_available_follows_coordinator solar_current
       solar_current_in_catalog eq_refl)))
    (coordinator._async_refresh (transport_status 500) sample_coordinator)).
Defined.

(** C3 fails on the code: with the text "abc" at attribute 81 and 5.0 at
    attribute 82 neither input is null, and the product is null. *)
Lemma product_null_on_text :
  is_none (get (<[81 := VStr "abc"]> (<[82 := VFloat 5]> ∅)) 81) = false
  /\ is_none (get (<[81 := VStr "abc"]> (<[82 := VFloat 5]> ∅)) 82) = false
  /\ sensors._calculate_product 81 82 (<[81 := VStr "abc"]> (<[82 := VFloat 5]> ∅))
     = Return VNone.
Proof. repeat split; vm_compute; reflexivity. Qed.

Lemma batch_81_82_no_overflow (a : Z) : ~ overflows (get batch_81_82 a).
Proof.
  unfold overflows, get, batch_81_82. intros Ho.
  destruct (decide (a = 81)) as [->|H81].
  - rewrite lookup_insert_eq in Ho. discriminate.
  - rewrite lookup_insert_ne in Ho by done.
    destruct (decide (a = 82)) as [->|H82].
    + rewrite lookup_insert_eq in Ho. discriminate.
    + rewrite lookup_insert_ne, lookup_empty in Ho by done. discriminate.
Defined.

(** With 12.6 at attribute 81 and 5.0 at attribute 82, [battery_power] is 63.0. *)
Lemma product_value_witness :
  sensors._calculate_product 81 82 batch_81_82 = Return (VFloat 63).
Proof.
  exact (proj2 (proj2
    (product_value 81 82 batch_81_82
       (batch_81_82_no_overflow 81) (batch_81_82_no_overflow 82)))
    0x1.9333333333333p+3%float 5%float eq_refl eq_refl).
Defined.

(** On the response that carries only attribute 442 the call returns a batch
    whose attribute 442 is the value of the last entry. *)
Lemma latest_value_witness :
  exists batch,
    api.async_get_latest_values transport_442 sample_client 12345 [86; 442] 0
    = Return batch
    /\ get batch 442 = VFloat 120
    /\ get batch 86 = VNone.
Proof.
  destruct (latest_value_is_last_entry transport_442 sample_client 12345
              [86; 442] 0 _ _ _ eq_refl eq_refl eq_refl)
    as (batch & Hb & Hlast & _ & Habsent & _).
  exists batch. split; [exact Hb|]. split.
  - exact (proj2 (Hlast [] "442" [] (VInt 1700000000) (VFloat 120) [] [] 442
                    eq_refl eq_refl (Forall_nil_2 _))).
  - apply Habsent. repeat constructor. unfold parses_to. simpl. discriminate.
Defined.



(** A response with status 500 makes the refresh fail for this cycle: the
    update raises [UpdateFailed] and the next refresh stays scheduled. *)
Lemma refresh_cycle_witness :
  coordinator._async_update_data (transport_status 500) sample_coordinator
  = raise UpdateFailed
  /\ coordinator.refresh_scheduled
       (coordinator._async_refresh (transport_status 500) sample_coordinator)
     = true.
Proof.
  destruct (proj1 (proj2
    (refresh_cycle_outcomes (transport_status 500) sample_coordinator))
    (mkExc VictronApiError None) eq_refl eq_refl eq_refl)
    as (Hu & _ & _ & _ & Hs & _).
  exact (conj Hu Hs).
Defined.

(** An entry whose only configured key is unknown gets the whole catalog. *)
Lemma active_descriptions_witness :
  init.descriptions sample_entry = Return sensors.SENSOR_DESCRIPTIONS.
Proof.
  apply (proj1 (proj2 (active_descriptions_fallback sample_entry))
           ["no_such_metric"] eq_refl).
  repeat constructor.
Defined.

(** A key that is not a number is skipped. *)
Lemma extraction_witness :
  api.extract [("total", VList []); ("81", VList [VList [VInt 1]])] ∅
  = api.extract [("81", VList [VList [VInt 1]])] ∅.
Proof.
  exact (proj1 (proj2
    (extraction_is_total [("total", VList []); ("81", VList [VList [VInt 1]])]))
    [] "total" (VList []) [("81", VList [VList [VInt 1]])] eq_refl eq_refl).
Defined.
End OnInputs.


(** ** More on the derivation functions and the sensor entity *)

Section SensorFacts.
Context `{Builtins}.

Lemma py_float_raises v err :
  py_float v = Raise err ->
  err = mkExc TypeError None \/ err = mkExc ValueError None
  \/ overflows v.
Proof.
  intros He. unfold overflows.
  destruct (py_float_cases v) as [[x Hx]|[Hx|[Hx|Hx]]];
    rewrite Hx in He; unfold raise in *; try discriminate;
    injection He as <-; auto.
Qed.

(** X2: the ratio and the product raise nothing but [OverflowError], and
    only when one of their two inputs is an integer too large for a binary64
    number; on every other batch they return. *)
Theorem derivations_raise_only_on_overflow (a b : Z) (data : gmap Z PyValue) :
  (returns (sensors._calculate_ratio a b data)
   \/ sensors._calculate_ratio a b data = raise OverflowError
      /\ (overflows (get data a) \/ overflows (get data b)))
  /\ (returns (sensors._calculate_product a b data)
      \/ sensors._calculate_product a b data = raise OverflowError
         /\ (overflows (get data a) \/ overflows (get data b))).
Proof.
  unfold sensors._calculate_ratio, sensors._calculate_product.
  generalize (get data a), (get data b). intros x y. cbv zeta. split.
  - destruct (is_none x || (is_none y || eq_zero y)); [left; by eexists|].
    destruct (py_float x) as [fx|ex] eqn:Ex.
    + destruct (py_float y) as [fy|ey] eqn:Ey.
      * left. simpl. unfold truediv.
        destruct (fy =? zero)%float; simpl; by eexists.
      * destruct (py_float_raises _ _ Ey) as [->|[->|Ho]].
        -- left. by eexists.
        -- left. by eexists.
        -- right. rewrite Ho in Ey. injection Ey as <-. split; [done|by right].
    + destruct (py_float_raises _ _ Ex) as [->|[->|Ho]].
      * left. by eexists.
      * left. by eexists.
      * right. rewrite Ho in Ex. injection Ex as <-. split; [done|by left].
  - destruct (is_none x || is_none y); [left; by eexists|].
    destruct (py_float x) as [fx|ex] eqn:Ex.
    + destruct (py_float y) as [fy|ey] eqn:Ey.
      * left. by eexists.
      * destruct (py_float_raises _ _ Ey) as [->|[->|Ho]].
        -- left. by eexists.
        -- left. by eexists.
        -- right. rewrite Ho in Ey. injection Ey as <-. split; [done|by right].
    + destruct (py_float_raises _ _ Ex) as [->|[->|Ho]].
      * left. by eexists.
      * left. by eexists.
      * right. rewrite Ho in Ex. injection Ex as <-. split; [done|by left].
Qed.

Lemma int_of_float_cases (f : float) :
  (exists k, int_of_float f = Return k) \/ int_of_float f = raise ValueError
  \/ int_of_float f = raise OverflowError.
Proof.
  unfold int_of_float. destruct (FloatOps.Prim2SF f); eauto.
Qed.

Lemma map_state_non_null (mapping : gmap Z string) (a : Z)
    (data : gmap Z PyValue) :
  get data a <> VNone ->
  (exists label,
     sensors._map_state mapping a data = Return (VStr label)
     /\ (label = "Unknown" \/ exists k, mapping !! k = Some label))
  \/ (sensors._map_state mapping a data = raise OverflowError
      /\ exists f, get data a = VFloat f
                   /\ int_of_float f = raise OverflowError).
Proof.
  unfold sensors._map_state. generalize (get data a). intros raw. cbv zeta.
  intros Hraw. apply is_none_false in Hraw as E. rewrite E.
  assert (forall k,
            exists label,
              Return (VStr (default "Unknown" (mapping !! k)))
              = Return (A := PyValue) (VStr label)
              /\ (label = "Unknown" \/ exists k, mapping !! k = Some label))
    as Hlabel.
  { intros k. destruct (mapping !! k) as [l|] eqn:Hk; simpl; eauto. }
  destruct raw as [|b|z|f|s|l|d]; simpl.
  - done.
  - left. apply Hlabel.
  - left. apply Hlabel.
  - destruct (int_of_float_cases f) as [[k Hk]|[Hk|Hk]]; rewrite Hk; simpl.
    + left. apply Hlabel.
    + left. eauto.
    + right. eauto.
  - destruct (int_of_str s); simpl; [left; apply Hlabel|left; eauto].
  - left. eauto.
  - left. eauto.
Qed.

Lemma map_state_null_iff (mapping : gmap Z string) (a : Z)
    (data : gmap Z PyValue) :
  sensors._map_state mapping a data = Return VNone <-> get data a = VNone.
Proof.
  split; [|apply map_state_null].
  destruct (is_none (get data a)) eqn:E; [intros _; by apply is_none_true|].
  apply is_none_false in E. intros Hr.
  destruct (map_state_non_null mapping a data E) as [(label & Hl & _)|(Ho & _)];
    rewrite Hr in *; discriminate.
Qed.

Lemma map_state_infinite (mapping : gmap Z string) (a : Z)
    (data : gmap Z PyValue) (f : float) (s : bool) :
  get data a = VFloat f ->
  FloatOps.Prim2SF f = SpecFloat.S754_infinity s ->
  sensors._map_state mapping a data = raise OverflowError.
Proof.
  intros Hraw Hinf. unfold sensors._map_state. rewrite Hraw. cbv zeta.
  cbn [is_none py_int]. unfold int_of_float. rewrite Hinf. reflexivity.
Qed.

Lemma overflow_is_infinite (f : float) :
  int_of_float f = raise OverflowError ->
  exists s, FloatOps.Prim2SF f = SpecFloat.S754_infinity s.
Proof.
  unfold int_of_float, raise.
  destruct (FloatOps.Prim2SF f) as [z|i| |sg m e]; try discriminate.
  intros _. by exists i.
Qed.

(** X3: a lookup-table metric is null exactly when its raw value is null.
    On any other raw value it is a text: a label of the table or "Unknown",
    the latter also for a raw value [int] rejects; the one exception is a raw
    value that is an infinite float. On every such value, of either sign, it
    raises [OverflowError], which the handler for [TypeError] and
    [ValueError] does not catch; so it raises exactly on the infinite
    floats, as on a batch that holds [float("inf")] or [float("-inf")]. *)
Theorem map_state_result (mapping : gmap Z string) (a : Z)
    (data : gmap Z PyValue) :
  (sensors._map_state mapping a data = Return VNone <-> get data a = VNone)
  /\ (get data a <> VNone ->
      (exists label,
         sensors._map_state mapping a data = Return (VStr label)
         /\ (label = "Unknown" \/ exists k, mapping !! k = Some label))
      \/ (sensors._map_state mapping a data = raise OverflowError
          /\ exists f, get data a = VFloat f
                       /\ int_of_float f = raise OverflowError))
  /\ (forall f s,
        get data a = VFloat f ->
        FloatOps.Prim2SF f = SpecFloat.S754_infinity s ->
        sensors._map_state mapping a data = raise OverflowError)
  /\ ((exists e, sensors._map_state mapping a data = Raise e) <->
      exists f s, get data a = VFloat f
                  /\ FloatOps.Prim2SF f = SpecFloat.S754_infinity s)
  /\ sensors._map_state mapping a (<[a := VFloat infinity]> data)
     = raise OverflowError
  /\ sensors._map_state mapping a (<[a := VFloat neg_infinity]> data)
     = raise OverflowError.
Proof.
  split; [apply map_state_null_iff|]. split; [apply map_state_non_null|].
  split; [apply map_state_infinite|]. split; [split|split].
  - intros [e He].
    destruct (is_none (get data a)) eqn:E.
    { apply is_none_true in E.
      apply (proj2 (map_state_null_iff mapping a data)) in E.
      rewrite E in He. discriminate. }
    apply is_none_false in E.
    destruct (map_state_non_null mapping a data E)
      as [(label & Hl & _)|(_ & f & Hf & Ho)].
    + rewrite Hl in He. discriminate.
    + destruct (overflow_is_infinite f Ho) as [s Hs]. eauto.
  - intros (f & s & Hf & Hs). eexists.
    exact (map_state_infinite mapping a data f s Hf Hs).
  - apply (map_state_infinite mapping a _ infinity false); [|reflexivity].
    unfold get. by rewrite lookup_insert_eq.
  - apply (map_state_infinite mapping a _ neg_infinity true); [|reflexivity].
    unfold get. by rewrite lookup_insert_eq.
Qed.

Lemma catalog_attribute_backed (d : sensors.VictronSensorEntityDescription)
    (a : Z) :
  d ∈ sensors.SENSOR_DESCRIPTIONS -> sensors.attribute_id d = Some a ->
  sensors.value_fn d = None
  \/ exists mapping,
      sensors.value_fn d = Some (fun data => sensors._map_state mapping a data).
Proof.
  unfold sensors.SENSOR_DESCRIPTIONS. rewrite !elem_of_cons, elem_of_nil.
  intros Hd.
  repeat (destruct Hd as [->|Hd];
          [simpl; intros [= <-] || intros [=]; (by left) || (right; by eexists)|]).
  destruct Hd.
Qed.

Lemma available_of_attribute (d : sensors.VictronSensorEntityDescription)
    (a : Z) (c : coordinator.VictronDataUpdateCoordinator) :
  sensors.available_fn d = None -> sensors.attribute_id d = Some a ->
  sensors.available
    {| sensors.coordinator := c; sensors.entity_description := d |}
  = negb (is_none (get (coordinator.data c) a)).
Proof.
  intros Hav Hid. unfold sensors.available, get.
  cbn [sensors.entity_description sensors.coordinator]. rewrite Hav, Hid.
  by destruct (coordinator.data c !! a).
Qed.

(** X4: for every descriptor of the catalog that names an attribute id (the
    direct metrics and the two lookup-table metrics), the sensor is available
    exactly when the cached batch holds a non-null value at that id, and it
    is unavailable exactly when its value is null. *)
Theorem attribute_backed_availability
    (d : sensors.VictronSensorEntityDescription) (a : Z)
    (c : coordinator.VictronDataUpdateCoordinator) :
  d ∈ sensors.SENSOR_DESCRIPTIONS ->
  sensors.attribute_id d = Some a ->
  (sensors.available
     {| sensors.coordinator := c; sensors.entity_description := d |} = true
   <-> get (coordinator.data c) a <> VNone)
  /\ (sensors.available
        {| sensors.coordinator := c; sensors.entity_description := d |} = false
      <-> sensors.native_value
            {| sensors.coordinator := c; sensors.entity_description := d |}
          = Return VNone).
Proof.
  intros Hin Hid. pose proof (catalog_available_fn _ Hin) as Hav.
  rewrite (available_of_attribute _ _ _ Hav Hid). split.
  - rewrite negb_true_iff. apply is_none_false.
  - rewrite negb_false_iff, is_none_true.
    unfold sensors.native_value.
    cbn [sensors.entity_description sensors.coordinator].
    destruct (catalog_attribute_backed _ _ Hin Hid) as [Hv|(mapping & Hv)];
      rewrite Hv.
    + rewrite Hid. split; [by intros ->|by intros [= ->]].
    + symmetry. apply map_state_null_iff.
Qed.

Lemma ratio_local (n d : Z) (data data' : gmap Z PyValue) :
  data !! n = data' !! n -> data !! d = data' !! d ->
  sensors._calculate_ratio n d data = sensors._calculate_ratio n d data'.
Proof. unfold sensors._calculate_ratio, get. by intros -> ->. Qed.

Lemma product_local (a b : Z) (data data' : gmap Z PyValue) :
  data !! a = data' !! a -> data !! b = data' !! b ->
  sensors._calculate_product a b data = sensors._calculate_product a b data'.
Proof. unfold sensors._calculate_product, get. by intros -> ->. Qed.

Lemma map_state_local (mapping : gmap Z string) (a : Z)
    (data data' : gmap Z PyValue) :
  data !! a = data' !! a ->
  sensors._map_state mapping a data = sensors._map_state mapping a data'.
Proof. unfold sensors._map_state, get. by intros ->. Qed.

(** X5: the value of a catalog metric depends on the cached batch only
    through the attribute ids its descriptor declares ([attribute_id] and
    [requires]): two batches that agree on them give the same value or the
    same exception. These are the ids the coordinator asks for. *)
Theorem native_value_reads_declared_ids
    (d : sensors.VictronSensorEntityDescription)
    (c c' : coordinator.VictronDataUpdateCoordinator) :
  d ∈ sensors.SENSOR_DESCRIPTIONS ->
  (forall a, depends_on d a -> coordinator.data c !! a = coordinator.data c' !! a) ->
  sensors.native_value
    {| sensors.coordinator := c; sensors.entity_description := d |}
  = sensors.native_value
      {| sensors.coordinator := c'; sensors.entity_description := d |}.
Proof.
  unfold sensors.SENSOR_DESCRIPTIONS. rewrite !elem_of_cons, elem_of_nil.
  intros Hd Hagree. unfold sensors.native_value, depends_on in *.
  repeat (destruct Hd as [->|Hd];
    [cbn [sensors.entity_description sensors.coordinator sensors.value_fn
          sensors.attribute_id sensors.requires sensors.direct] in *;
     first [ apply ratio_local | apply product_local | apply map_state_local
           | unfold get; f_equal; f_equal ];
     apply Hagree; rewrite ?elem_of_cons; auto|]).
  destruct Hd.
Qed.

Lemma catalog_lookup_Some (l : list sensors.VictronSensorEntityDescription)
    (m : gmap string sensors.VictronSensorEntityDescription) (k : string)
    (d : sensors.VictronSensorEntityDescription) :
  foldl (fun m d => <[sensors.key d := d]> m) m l !! k = Some d ->
  m !! k = Some d \/ (d ∈ l /\ sensors.key d = k).
Proof.
  revert m. induction l as [|d' l IH]; intros m; simpl; [auto|].
  intros Hl. destruct (IH _ Hl) as [Hm|[Hin Hk]].
  - apply lookup_insert_Some in Hm as [[<- <-]|[_ Hm]].
    + right. split; [apply elem_of_cons; by left|done].
    + by left.
  - right. split; [apply elem_of_cons; by right|done].
Qed.

Lemma sensor_map_key (k : string) (d : sensors.VictronSensorEntityDescription) :
  sensors.SENSOR_MAP !! k = Some d ->
  d ∈ sensors.SENSOR_DESCRIPTIONS /\ sensors.key d = k.
Proof.
  intros Hk. apply catalog_lookup_Some in Hk as [Hk|Hk]; [|done].
  by rewrite lookup_empty in Hk.
Qed.

Lemma sensor_map_member (d : sensors.VictronSensorEntityDescription) :
  d ∈ sensors.SENSOR_DESCRIPTIONS ->
  sensors.SENSOR_MAP !! sensors.key d = Some d.
Proof.
  unfold sensors.SENSOR_DESCRIPTIONS at 1. rewrite !elem_of_cons, elem_of_nil.
  intros Hd. repeat (destruct Hd as [->|Hd]; [reflexivity|]). destruct Hd.
Qed.

(** X6: the map of the catalog by key is faithful to the list: a key maps to
    a descriptor exactly when the descriptor is in the list and carries that
    key, and no two descriptors of the list share a key, so that the default
    key list has no repetition. *)
Theorem sensor_map_round_trip :
  (forall k d,
     sensors.SENSOR_MAP !! k = Some d
     <-> d ∈ sensors.SENSOR_DESCRIPTIONS /\ sensors.key d = k)
  /\ NoDup sensors.DEFAULT_SENSOR_KEYS
  /\ (forall d d',
        d ∈ sensors.SENSOR_DESCRIPTIONS -> d' ∈ sensors.SENSOR_DESCRIPTIONS ->
        sensors.key d = sensors.key d' -> d = d').
Proof.
  split; [|split].
  - intros k d. split; [apply sensor_map_key|].
    intros [Hin <-]. by apply sensor_map_member.
  - apply (bool_decide_unpack (NoDup sensors.DEFAULT_SENSOR_KEYS)).
    vm_compute. exact I.
  - intros d d' Hd Hd' Hk. apply sensor_map_member in Hd, Hd'.
    rewrite Hk in Hd. congruence.
Qed.

(** X7: the diagnostic attributes of a sensor are empty exactly when its
    descriptor names no attribute id; otherwise they are the id and the raw
    value the batch holds there, and for a descriptor of the catalog that raw
    value is null exactly when the sensor is unavailable. *)
Theorem extra_state_attributes_raw_value (self : sensors.VictronSensor) :
  (sensors.extra_state_attributes self = []
   <-> sensors.attribute_id (sensors.entity_description self) = None)
  /\ (forall a,
        sensors.attribute_id (sensors.entity_description self) = Some a ->
        sensors.extra_state_attributes self
        = [("attribute_id", VInt a);
           ("raw_value",
            get (coordinator.data (sensors.coordinator self)) a)]
        /\ (sensors.entity_description self ∈ sensors.SENSOR_DESCRIPTIONS ->
            (get (coordinator.data (sensors.coordinator self)) a = VNone
             <-> sensors.available self = false))).
Proof.
  destruct self as [c d]. unfold sensors.extra_state_attributes.
  cbn [sensors.entity_description sensors.coordinator]. split.
  - destruct (sensors.attribute_id d); split; done.
  - intros a Ha. rewrite Ha. split; [done|]. intros Hin.
    rewrite (available_of_attribute _ _ _ (catalog_available_fn _ Hin) Ha).
    by rewrite negb_false_iff, is_none_true.
Qed.

(** X8: the platform setup reads [hass.data[DOMAIN][entry_id]]. When the
    coordinator and the descriptions are stored there it returns one sensor
    per description, in their order, all on that coordinator. When the
    domain has no data for the entry id it raises [KeyError]; that is the
    case for every entry id on the registry that [async_setup] creates. *)
Theorem platform_setup_reads_registry
    (hass_data : gmap string (gmap string sensors.EntryData))
    (entry_id : string) :
  (forall domain_data c ds,
     hass_data !! const.DOMAIN = Some domain_data ->
     domain_data !! entry_id
     = Some {| sensors.entry_coordinator := Some c;
               sensors.entry_descriptions := Some ds |} ->
     exists entities,
       sensors.async_setup_entry hass_data entry_id = Return entities
       /\ map sensors.entity_description entities = ds
       /\ Forall (fun s => sensors.coordinator s = c) entities)
  /\ (forall domain_data,
        hass_data !! const.DOMAIN = Some domain_data ->
        domain_data !! entry_id = None ->
        sensors.async_setup_entry hass_data entry_id = raise KeyError)
  /\ (hass_data !! const.DOMAIN = None ->
      init.async_setup hass_data !! const.DOMAIN = Some ∅
      /\ sensors.async_setup_entry (init.async_setup hass_data) entry_id
         = raise KeyError)
  /\ (forall domain_data,
        hass_data !! const.DOMAIN = Some domain_data ->
        init.async_setup hass_data = hass_data).
Proof.
  unfold sensors.async_setup_entry, init.async_setup.
  split; [|split; [|split]].
  - intros domain_data c ds -> Hd. simpl. rewrite Hd. simpl.
    eexists. split; [reflexivity|]. split.
    + rewrite map_map. simpl. apply map_id.
    + apply Forall_forall. intros s Hs. apply list_elem_of_In in Hs.
      apply in_map_iff in Hs as (d & <- & _). reflexivity.
  - intros domain_data -> Hd. simpl. by rewrite Hd.
  - intros Hnone. rewrite Hnone, lookup_insert_eq. split; [done|].
    simpl. by rewrite lookup_empty.
  - by intros domain_data ->.
Qed.
End SensorFacts.


(** ** More on the client and the coordinator *)

Section GatewayFacts.
Context `{Builtins}.

Lemma http_clauses_propagate (err : PyExc) :
  ~ client_failure err -> try_except (Raise err) api.http_clauses = Raise err.
Proof.
  unfold client_failure. destruct err as [c s].
  destruct c; simpl; try done; intros Hc; by destruct Hc.
Qed.

(** X9: the installation listing returns the elements of "records" that are
    objects with an "idSite" key, in their order, and drops the others. A
    payload whose "records" is missing or not a list raises
    [VictronApiError]; a payload that is not an object raises
    [AttributeError]; an exception of the HTTP call that is not an aiohttp
    client failure is passed on unchanged. *)
Theorem installations_listing (transport : api.Transport)
    (self : api.VictronApiClient) :
  (forall payload items,
     transport (api.installations_request self) = Return (VDict payload) ->
     items_get "records" payload = Some (VList items) ->
     api.async_get_installations transport self
     = Return (filter (fun item => api.is_installation item = true) items)
     /\ forall item,
          item ∈ filter (fun item => api.is_installation item = true) items
          <-> item ∈ items
              /\ exists d, item = VDict d /\ is_Some (items_get "idSite" d))
  /\ (forall payload,
        transport (api.installations_request self) = Return (VDict payload) ->
        (forall items, items_get "records" payload <> Some (VList items)) ->
        api.async_get_installations transport self = raise VictronApiError)
  /\ (forall p,
        transport (api.installations_request self) = Return p ->
        (forall payload, p <> VDict payload) ->
        api.async_get_installations transport self = raise AttributeError)
  /\ (forall err,
        transport (api.installations_request self) = Raise err ->
        ~ client_failure err ->
        api.async_get_installations transport self = Raise err).
Proof.
  unfold api.async_get_installations. split; [|split; [|split]].
  - intros payload items -> Hr. simpl. rewrite Hr. simpl. split; [done|].
    intros item. rewrite list_elem_of_filter. unfold api.is_installation.
    split.
    + intros [Hi Hin]. split; [done|].
      destruct item; try discriminate. eexists. split; [done|].
      by apply bool_decide_eq_true in Hi.
    + intros [Hin (d & -> & Hd)]. split; [|done].
      by apply bool_decide_eq_true.
  - intros payload -> Hr. simpl.
    destruct (items_get "records" payload) as [[]|]; simpl; try done.
    by destruct (Hr items).
  - intros p -> Hp. destruct p; simpl; try done. by destruct (Hp items).
  - intros err -> Hc. by rewrite http_clauses_propagate.
Qed.

(** X10: the installation details call returns the decoded payload as it
    is, whatever its shape. A response with status 401 or 403 raises
    [VictronApiAuthError], every other aiohttp client failure raises
    [VictronApiError], and any other exception is passed on unchanged. *)
Theorem site_details_pass_through (transport : api.Transport)
    (self : api.VictronApiClient) (installation_id : Z) :
  (forall p,
     transport (site_details_request self installation_id) = Return p ->
     api.async_get_site_details transport self installation_id = Return p)
  /\ (forall err,
        transport (site_details_request self installation_id) = Raise err ->
        (auth_status err ->
           api.async_get_site_details transport self installation_id
           = raise VictronApiAuthError)
        /\ (client_failure err -> ~ auth_status err ->
           api.async_get_site_details transport self installation_id
           = raise VictronApiError)
        /\ (~ client_failure err ->
           api.async_get_site_details transport self installation_id
           = Raise err)).
Proof.
  unfold api.async_get_site_details, site_details_request. cbv zeta. split.
  - by intros p ->.
  - intros err ->. split; [|split].
    + apply http_clauses_auth.
    + apply http_clauses_other.
    + apply http_clauses_propagate.
Qed.

Lemma latest_values_not_object transport self iid ids dev p :
  transport (api.latest_values_request self iid ids dev) = Return p ->
  (forall payload, p <> VDict payload) ->
  api.async_get_latest_values transport self iid ids dev = raise AttributeError.
Proof.
  unfold api.async_get_latest_values. intros -> Hp.
  destruct p; simpl; try done. by destruct (Hp items).
Qed.

Lemma latest_values_bad_shape transport self iid ids dev payload :
  transport (api.latest_values_request self iid ids dev) = Return (VDict payload) ->
  (forall items, ~ well_shaped payload items) ->
  api.async_get_latest_values transport self iid ids dev = raise VictronApiError.
Proof.
  unfold api.async_get_latest_values, well_shaped. intros -> Hs. simpl.
  destruct (items_get "records" payload) as [[| | | | | |records]|] eqn:Hr;
    simpl; try done.
  destruct (items_get "data" records) as [[| | | | | |items]|] eqn:Hd;
    simpl; try done.
  destruct (Hs items). eauto.
Qed.

(** X11: when the HTTP call of the batch fetch answers with a payload, the
    fetch returns a batch exactly when the payload is an object whose
    "records" is an object whose "data" is an object. An object of any other
    shape, also one without "records", raises [VictronApiError], and a
    payload that is not an object raises [AttributeError]. *)
Theorem latest_values_payload_shape transport self iid ids dev p :
  transport (api.latest_values_request self iid ids dev) = Return p ->
  (returns (api.async_get_latest_values transport self iid ids dev)
   <-> exists payload items, p = VDict payload /\ well_shaped payload items)
  /\ (forall payload,
        p = VDict payload -> (forall items, ~ well_shaped payload items) ->
        api.async_get_latest_values transport self iid ids dev
        = raise VictronApiError)
  /\ ((forall payload, p <> VDict payload) ->
      api.async_get_latest_values transport self iid ids dev
      = raise AttributeError).
Proof.
  intros Ht. split; [|split].
  - split.
    + intros [batch Hb].
      destruct p as [| | | | | |payload];
        try (rewrite (latest_values_not_object _ _ _ _ _ _ Ht) in Hb;
             [discriminate|done]).
      exists payload.
      destruct (items_get "records" payload) as [[| | | | | |records]|] eqn:Hr;
        try (rewrite (latest_values_bad_shape _ _ _ _ _ _ Ht) in Hb;
             [discriminate|intros ? (r & Hr' & _); congruence]).
      destruct (items_get "data" records) as [[| | | | | |items]|] eqn:Hd;
        try (rewrite (latest_values_bad_shape _ _ _ _ _ _ Ht) in Hb;
             [discriminate|intros ? (r & Hr' & Hd'); congruence]).
      exists items. split; [done|]. by exists records.
    + intros (payload & items & -> & records & Hr & Hd).
      eexists. exact (latest_values_of_payload _ _ _ _ _ _ _ _ Ht Hr Hd).
  - intros payload -> Hs. exact (latest_values_bad_shape _ _ _ _ _ _ Ht Hs).
  - intros Hp. exact (latest_values_not_object _ _ _ _ _ _ Ht Hp).
Qed.

(** X12: an error of the gateway's own kinds never leaves the coordinator's
    update: whatever the remote side does, an exception raised by
    [_async_update_data] is not a [VictronApiError] (nor its subclass
    [VictronApiAuthError]); it is [ConfigEntryAuthFailed], [UpdateFailed], or
    an exception of another kind that the gateway call itself raised. *)
Theorem update_translates_api_errors (transport : api.Transport)
    (self : coordinator.VictronDataUpdateCoordinator) (err : PyExc) :
  coordinator._async_update_data transport self = Raise err ->
  isinstance err VictronApiError = false
  /\ isinstance err VictronApiAuthError = false
  /\ (err = mkExc ConfigEntryAuthFailed None \/ err = mkExc UpdateFailed None
      \/ gateway_call transport self = Raise err).
Proof.
  unfold coordinator._async_update_data, gateway_call.
  destruct (api.async_get_latest_values _ _ _ _ _) as [batch|e]; [done|].
  cbn [try_except handle existsb].
  destruct (isinstance e VictronApiAuthError) eqn:Ha; simpl.
  { intros [= <-]. auto. }
  destruct (isinstance e VictronApiError) eqn:Hb; simpl.
  { intros [= <-]. auto. }
  intros [= <-]. auto.
Qed.

Lemma latest_values_raise transport self iid ids dev err e :
  transport (api.latest_values_request self iid ids dev) = Raise err ->
  try_except (Raise err) api.http_clauses = Raise e ->
  api.async_get_latest_values transport self iid ids dev = Raise e.
Proof. unfold api.async_get_latest_values. by intros -> ->. Qed.

(** X13: what one update of the coordinator gives, by what the remote side
    does with its request: a response with status 401 or 403 gives
    [ConfigEntryAuthFailed]; any other aiohttp client failure and any
    payload object of an unexpected shape give [UpdateFailed]; a payload of
    the expected shape gives its batch; a payload that is not an object
    gives an [AttributeError], which is not translated. *)
Theorem update_outcome_by_transport (transport : api.Transport)
    (self : coordinator.VictronDataUpdateCoordinator) :
  (forall err,
     transport (api.latest_values_request (coordinator.api_client self)
                  (coordinator.installation_id self)
                  (coordinator.attribute_ids self)
                  (coordinator.device_instance self)) = Raise err ->
     (auth_status err ->
        coordinator._async_update_data transport self
        = raise ConfigEntryAuthFailed)
     /\ (client_failure err -> ~ auth_status err ->
        coordinator._async_update_data transport self = raise UpdateFailed))
  /\ (forall p,
        transport (api.latest_values_request (coordinator.api_client self)
                     (coordinator.installation_id self)
                     (coordinator.attribute_ids self)
                     (coordinator.device_instance self)) = Return p ->
        (forall payload items,
           p = VDict payload -> well_shaped payload items ->
           coordinator._async_update_data transport self
           = Return (foldl store_latest ∅ items))
        /\ (forall payload,
           p = VDict payload -> (forall items, ~ well_shaped payload items) ->
           coordinator._async_update_data transport self = raise UpdateFailed)
        /\ ((forall payload, p <> VDict payload) ->
           coordinator._async_update_data transport self
           = raise AttributeError)).
Proof.
  unfold coordinator._async_update_data. split.
  - intros err Ht. split.
    + intros Ha.
      by rewrite (latest_values_raise _ _ _ _ _ _ _ Ht (http_clauses_auth _ Ha)).
    + intros Hc Hna.
      by rewrite (latest_values_raise _ _ _ _ _ _ _ Ht
                    (http_clauses_other _ Hc Hna)).
  - intros p Ht. split; [|split].
    + intros payload items -> (records & Hr & Hd).
      by rewrite (latest_values_of_payload _ _ _ _ _ _ _ _ Ht Hr Hd).
    + intros payload -> Hs.
      by rewrite (latest_values_bad_shape _ _ _ _ _ _ Ht Hs).
    + intros Hp. by rewrite (latest_values_not_object _ _ _ _ _ _ Ht Hp).
Qed.

Lemma refresh_keeps_config transport
    (c : coordinator.VictronDataUpdateCoordinator) :
  coordinator.api_client (coordinator._async_refresh transport c)
  = coordinator.api_client c
  /\ coordinator.installation_id (coordinator._async_refresh transport c)
     = coordinator.installation_id c
  /\ coordinator.device_instance (coordinator._async_refresh transport c)
     = coordinator.device_instance c
  /\ coordinator.attribute_ids (coordinator._async_refresh transport c)
     = coordinator.attribute_ids c
  /\ coordinator.update_interval (coordinator._async_refresh transport c)
     = coordinator.update_interval c.
Proof.
  unfold coordinator._async_refresh.
  by destruct (coordinator._async_update_data transport c).
Qed.

Lemma gateway_call_refresh transport transport'
    (c : coordinator.VictronDataUpdateCoordinator) :
  gateway_call transport (coordinator._async_refresh transport' c)
  = gateway_call transport c.
Proof.
  unfold gateway_call.
  destruct (refresh_keeps_config transport' c) as (-> & -> & -> & -> & _).
  reflexivity.
Qed.

Lemma refreshes_config transports
    (c : coordinator.VictronDataUpdateCoordinator) :
  coordinator.attribute_ids (refreshes transports c)
  = coordinator.attribute_ids c
  /\ coordinator.update_interval (refreshes transports c)
     = coordinator.update_interval c
  /\ forall transport,
       gateway_call transport (refreshes transports c)
       = gateway_call transport c.
Proof.
  revert c. induction transports as [|t ts IH]; intros c; [done|].
  unfold refreshes in *. simpl.
  destruct (IH (coordinator._async_refresh t c)) as (-> & -> & Hg).
  destruct (refresh_keeps_config t c) as (_ & _ & _ & -> & ->).
  repeat split. intros transport. by rewrite Hg, gateway_call_refresh.
Qed.

Lemma update_data_raises transport self err :
  gateway_call transport self = Raise err ->
  exists err', coordinator._async_update_data transport self = Raise err'.
Proof.
  unfold gateway_call, coordinator._async_update_data. intros ->.
  cbn [try_except handle existsb].
  destruct (isinstance err VictronApiAuthError || false); [by eexists|].
  destruct (isinstance err VictronApiError || false); by eexists.
Qed.

(** X14: through any sequence of refresh cycles the coordinator keeps asking
    for the same attribute ids at the same interval, and what a cycle
    fetches does not depend on how earlier cycles ended. After a cycle whose
    fetch returned a batch the cache holds that batch; after a cycle whose
    fetch raised, the cache still holds what it held before the cycle and
    the last update counts as failed. *)
Theorem cache_after_refreshes (transports : list api.Transport)
    (transport : api.Transport)
    (c : coordinator.VictronDataUpdateCoordinator) :
  coordinator.attribute_ids (refreshes transports c)
  = coordinator.attribute_ids c
  /\ coordinator.update_interval (refreshes transports c)
     = coordinator.update_interval c
  /\ gateway_call transport (refreshes transports c) = gateway_call transport c
  /\ (forall batch,
        gateway_call transport c = Return batch ->
        coordinator.data (refreshes (transports ++ [transport]) c) = batch
        /\ coordinator.last_update_success
             (refreshes (transports ++ [transport]) c) = true)
  /\ (forall err,
        gateway_call transport c = Raise err ->
        coordinator.data (refreshes (transports ++ [transport]) c)
        = coordinator.data (refreshes transports c)
        /\ coordinator.last_update_success
             (refreshes (transports ++ [transport]) c) = false).
Proof.
  destruct (refreshes_config transports c) as (Hids & Hint & Hg).
  split; [done|]. split; [done|]. split; [done|].
  assert (refreshes (transports ++ [transport]) c
          = coordinator._async_refresh transport (refreshes transports c))
    as ->.
  { unfold refreshes. by rewrite foldl_app. }
  split.
  - intros batch Hb. rewrite <- Hg in Hb.
    unfold coordinator._async_refresh.
    by rewrite (update_data_success _ _ _ Hb).
  - intros err He. rewrite <- Hg in He.
    destruct (update_data_raises _ _ _ He) as [err' He'].
    unfold coordinator._async_refresh. by rewrite He'.
Qed.

Lemma descriptions_from_catalog (entry : init.VictronConfigEntry)
    (ds : list sensors.VictronSensorEntityDescription) :
  init.descriptions entry = Return ds ->
  ds <> [] /\ forall d, d ∈ ds -> d ∈ sensors.SENSOR_DESCRIPTIONS.
Proof.
  unfold init.descriptions.
  destruct (init.lookup_keys (init.selected_keys entry)) as [|d0 ds0] eqn:E.
  - rewrite index_keys_default. intros [= <-].
    split; [unfold sensors.SENSOR_DESCRIPTIONS; discriminate|auto].
  - intros [= <-]. split; [done|]. intros d Hd. rewrite <- E in Hd.
    unfold init.lookup_keys in Hd.
    apply list_elem_of_omap in Hd as (k & _ & Hk).
    by destruct (sensor_map_key _ _ Hk).
Qed.

(** X15: when the setup of an entry returns, the active descriptors are a
    non-empty part of the catalog, every attribute id that one of them
    names, directly or in [requires], is among the ids the coordinator asks
    for, and the coordinator holds the batch of the first fetch with its
    last update marked successful. *)
Theorem setup_entry_invariant (transport : api.Transport)
    (entry : init.VictronConfigEntry) (rd : init.VictronRuntimeData) :
  init.async_setup_entry transport entry = Return rd ->
  init.descriptions entry = Return (init.runtime_descriptions rd)
  /\ init.runtime_descriptions rd <> []
  /\ (forall d, d ∈ init.runtime_descriptions rd ->
                d ∈ sensors.SENSOR_DESCRIPTIONS)
  /\ (forall d a,
        d ∈ init.runtime_descriptions rd -> depends_on d a ->
        a ∈ coordinator.attribute_ids (init.runtime_coordinator rd))
  /\ coordinator.last_update_success (init.runtime_coordinator rd) = true
  /\ gateway_call transport (init.runtime_coordinator rd)
     = Return (coordinator.data (init.runtime_coordinator rd)).
Proof.
  unfold init.async_setup_entry.
  destruct (init.descriptions entry) as [ds|e] eqn:Hds; [|done].
  cbn [bind].
  destruct (init.scan_interval entry) as [interval|e]; [|done].
  cbn [bind]. unfold coordinator.async_config_entry_first_refresh.
  set (c0 := init.new_coordinator entry (init.attribute_ids ds) interval).
  destruct (coordinator._async_update_data transport c0) as [batch|e] eqn:Hu.
  2:{ destruct (isinstance e ConfigEntryAuthFailed); discriminate. }
  cbn [bind]. intros [= <-]. cbn [init.runtime_descriptions
    init.runtime_coordinator].
  destruct (descriptions_from_catalog _ _ Hds) as [Hne Hcat].
  destruct (refresh_keeps_config transport c0) as (_ & _ & _ & Hids & Hint).
  split; [done|]. split; [done|]. split; [done|]. split.
  { intros d a Hd Ha. rewrite Hids. apply attribute_ids_elem. eauto. }
  rewrite gateway_call_refresh.
  unfold coordinator._async_refresh. rewrite Hu.
  cbn [coordinator.last_update_success coordinator.data]. split; [done|].
  unfold coordinator._async_update_data in Hu. fold (gateway_call transport c0) in Hu.
  destruct (gateway_call transport c0) as [b|e] eqn:Hg.
  - simpl in Hu. congruence.
  - destruct (update_data_raises _ _ _ Hg) as [e' He'].
    unfold coordinator._async_update_data in He'.
    fold (gateway_call transport c0) in He'. rewrite Hg in He'. congruence.
Qed.
End GatewayFacts.


(** ** The configuration and options flows *)

Section OptionsFlowFacts.
Context `{Builtins}.

Lemma known_sensors_filter (l : list string) :
  config_flow.known_sensors (Some l) = filter known_key l.
Proof. by destruct l. Qed.

Lemma filter_known_all (l : list string) : Forall known_key (filter known_key l).
Proof. apply Forall_forall. intros k Hk. by apply list_elem_of_filter in Hk as [? _]. Qed.

(** X16: whatever the user submits, an entry that the options step creates
    holds a non-empty list of keys that are all in the catalog, namely the
    submitted keys with the unknown ones removed and the order kept, and a
    scan interval of at least 30, the integer value of what was submitted. *)
Theorem options_entry_is_valid (config_entry : init.VictronConfigEntry)
    (input : config_flow.OptionsInput) (data : config_flow.OptionsData) :
  config_flow.options_async_step_user config_entry (Some input)
  = Return (config_flow.create_entry data) ->
  config_flow.data_sensors data <> []
  /\ Forall known_key (config_flow.data_sensors data)
  /\ (exists l,
        config_flow.as_list (config_flow.input_sensors input) = Some l
        /\ config_flow.data_sensors data = filter known_key l)
  /\ 30 <= config_flow.data_scan_interval data
  /\ (exists raw,
        config_flow.input_scan_interval input = Some raw
        /\ py_int raw = Return (config_flow.data_scan_interval data)).
Proof.
  unfold config_flow.options_async_step_user.
  destruct (config_flow.as_list (config_flow.input_sensors input)) as [l|] eqn:El;
    [|done].
  rewrite known_sensors_filter.
  destruct (filter known_key l) as [|k ks] eqn:Ef; [done|].
  destruct (config_flow.input_scan_interval input) as [raw|]; [|done].
  cbn [sensors.subscript bind].
  destruct (py_int raw) as [n|e] eqn:En; [|done]. cbn [bind].
  destruct (n <? 30)%Z eqn:Hn; [done|]. intros [= <-]. simpl.
  apply Z.ltb_ge in Hn. split; [done|]. split.
  { rewrite <- Ef. apply filter_known_all. }
  split; [by exists l|]. split; [done|]. by exists raw.
Qed.

(** X17: the options step without input shows the form with no error. With
    input it rejects a selection without a known key with "select_sensor",
    without looking at the interval; with a known key selected it rejects an
    interval under 30 with "interval_too_short", accepts any other integer,
    and raises [KeyError] when the input has no interval. *)
Theorem options_step_outcomes (config_entry : init.VictronConfigEntry)
    (input : config_flow.OptionsInput) :
  config_flow.options_async_step_user config_entry None
  = Return (config_flow.options_form config_entry ∅)
  /\ (config_flow.input_sensors input = config_flow.sensors_none ->
      config_flow.options_async_step_user config_entry (Some input)
      = Return (config_flow.options_form config_entry
                  {[ const.CONF_SENSORS := "select_sensor" ]}))
  /\ (forall l,
        config_flow.as_list (config_flow.input_sensors input) = Some l ->
        (Forall unknown_key l ->
           config_flow.options_async_step_user config_entry (Some input)
           = Return (config_flow.options_form config_entry
                       {[ const.CONF_SENSORS := "select_sensor" ]}))
        /\ (Exists known_key l ->
            (config_flow.input_scan_interval input = None ->
               config_flow.options_async_step_user config_entry (Some input)
               = raise KeyError)
            /\ (forall raw n,
                  config_flow.input_scan_interval input = Some raw ->
                  py_int raw = Return n ->
                  (n < 30 ->
                     config_flow.options_async_step_user config_entry (Some input)
                     = Return (config_flow.options_form config_entry
                                 {[ const.CONF_SCAN_INTERVAL
                                    := "interval_too_short" ]}))
                  /\ (30 <= n ->
                      config_flow.options_async_step_user config_entry (Some input)
                      = Return (config_flow.create_entry
                                  {| config_flow.data_sensors := filter known_key l;
                                     config_flow.data_scan_interval := n |}))))).
Proof.
  unfold config_flow.options_async_step_user. split; [done|]. split.
  { by intros ->. }
  intros l ->. rewrite known_sensors_filter. split.
  - intros Hu.
    assert (filter known_key l = []) as ->; [|done].
    destruct (filter known_key l) as [|k ks] eqn:Ef; [done|].
    assert (k ∈ filter known_key l) as Hf by (rewrite Ef; apply elem_of_cons; by left).
    apply list_elem_of_filter in Hf as [[d Hd] Hin].
    rewrite Forall_forall in Hu. specialize (Hu k Hin).
    unfold unknown_key in Hu. congruence.
  - intros Hk.
    destruct (filter known_key l) as [|k ks] eqn:Ef.
    { exfalso. apply Exists_exists in Hk as (k & Hin & Hk).
      assert (k ∈ filter known_key l) as Hf by by apply list_elem_of_filter.
      rewrite Ef in Hf. by apply elem_of_nil in Hf. }
    split.
    + by intros ->.
    + intros raw n -> Hn. cbn [sensors.subscript bind]. rewrite Hn.
      cbn [bind]. split.
      * intros Hlt. apply Z.ltb_lt in Hlt. by rewrite Hlt.
      * intros Hge. apply Z.ltb_ge in Hge. by rewrite Hge.
Qed.

Lemma lookup_keys_all_known (l : list string) :
  Forall known_key l -> map sensors.key (init.lookup_keys l) = l.
Proof.
  unfold init.lookup_keys.
  induction 1 as [|k l [d Hd] _ IH]; [done|].
  simpl. rewrite Hd. simpl.
  f_equal; [by destruct (sensor_map_key _ _ Hd)|exact IH].
Qed.

Lemma timedelta_seconds_in_range (n : Z) :
  0 <= n <= timedelta_max_seconds -> timedelta_seconds n = Return n.
Proof.
  unfold timedelta_max_seconds, timedelta_seconds. intros [Hlo Hhi].
  assert (0 <= n / 86400 < 1000000000) as Hd.
  { split; [apply Z.div_pos; lia|apply Z.div_lt_upper_bound; lia]. }
  rewrite Z.abs_eq by lia.
  destruct (Z.leb_spec (n / 86400) 999999999); [done|lia].
Qed.

Lemma timedelta_seconds_beyond (n : Z) :
  timedelta_max_seconds < n -> timedelta_seconds n = raise OverflowError.
Proof.
  unfold timedelta_max_seconds, timedelta_seconds. intros Hhi.
  assert (1000000000 <= n / 86400) as Hd
    by (apply Z.div_le_lower_bound; lia).
  rewrite Z.abs_eq by lia.
  destruct (Z.leb_spec (n / 86400) 999999999); [lia|done].
Qed.

(** X18: the options that the options step stores are the options the setup
    uses, as far as a [timedelta] can hold the interval. For an entry that
    carries them, the active descriptors are the catalog entries of exactly
    the stored keys, in the stored order, with no fall back to the whole
    catalog, and the stored interval is at least the minimum of 30 seconds.
    When the stored interval is at most [timedelta.max], it is the interval
    of the setup, and the coordinator of every setup that returns runs at
    it; when it is larger, which the options step accepts, building the
    interval raises [OverflowError] and so does the setup, whatever the
    gateway answers. *)
Theorem stored_options_are_used (config_entry entry : init.VictronConfigEntry)
    (input : config_flow.OptionsInput) (data : config_flow.OptionsData) :
  config_flow.options_async_step_user config_entry (Some input)
  = Return (config_flow.create_entry data) ->
  init.options_sensors entry = Some (config_flow.data_sensors data) ->
  init.options_scan_interval entry = Some (config_flow.data_scan_interval data) ->
  (exists ds,
     init.descriptions entry = Return ds
     /\ map sensors.key ds = config_flow.data_sensors data)
  /\ const.MIN_SCAN_INTERVAL <= config_flow.data_scan_interval data
  /\ (config_flow.data_scan_interval data <= timedelta_max_seconds ->
      init.scan_interval entry = Return (config_flow.data_scan_interval data)
      /\ forall transport rd,
           init.async_setup_entry transport entry = Return rd ->
           coordinator.update_interval (init.runtime_coordinator rd)
           = config_flow.data_scan_interval data)
  /\ (timedelta_max_seconds < config_flow.data_scan_interval data ->
      init.scan_interval entry = raise OverflowError
      /\ forall transport,
           init.async_setup_entry transport entry = raise OverflowError).
Proof.
  unfold config_flow.options_async_step_user.
  destruct (config_flow.as_list (config_flow.input_sensors input)) as [l|] eqn:El;
    [|done].
  rewrite known_sensors_filter.
  destruct (filter known_key l) as [|k ks] eqn:Ef; [done|].
  destruct (config_flow.input_scan_interval input) as [raw|]; [|done].
  cbn [sensors.subscript bind].
  destruct (py_int raw) as [n|e] eqn:En; [|done]. cbn [bind].
  destruct (n <? 30)%Z eqn:Hn; [done|]. intros [= <-].
  cbn [config_flow.data_sensors config_flow.data_scan_interval].
  apply Z.ltb_ge in Hn. intros Hs Hi.
  assert (exists ds, init.descriptions entry = Return ds
                     /\ map sensors.key ds = k :: ks) as (ds & Hds & Hkeys).
  { unfold init.descriptions, init.selected_keys. rewrite Hs.
    cbn [from_option id].
    assert (Forall known_key (k :: ks)) as Hall
      by (rewrite <- Ef; apply filter_known_all).
    pose proof (lookup_keys_all_known _ Hall) as Hm.
    destruct (init.lookup_keys (k :: ks)) as [|d ds]; [done|].
    by exists (d :: ds). }
  split; [by exists ds|]. split; [exact Hn|].
  unfold init.async_setup_entry, init.scan_interval.
  rewrite Hds, Hi. cbn [bind]. split.
  - intros Hmax. rewrite timedelta_seconds_in_range by lia.
    split; [done|]. intros transport rd. cbn [bind].
    unfold coordinator.async_config_entry_first_refresh.
    set (c0 := init.new_coordinator entry (init.attribute_ids ds) n).
    destruct (coordinator._async_update_data transport c0) as [batch|e] eqn:Hu.
    2:{ destruct (isinstance e ConfigEntryAuthFailed); discriminate. }
    cbn [bind]. intros [= <-]. cbn [init.runtime_coordinator].
    unfold coordinator._async_refresh. rewrite Hu.
    cbn [coordinator.update_interval]. unfold c0, init.new_coordinator.
    cbn [coordinator.update_interval].
    destruct (Z.eqb_spec n 0); [lia|done].
  - intros Hmax. rewrite timedelta_seconds_beyond by lia. done.
Qed.

End OptionsFlowFacts.

Section InstallationStepFacts.
Variable str : PyValue -> string.

Lemma installation_options_foldl (installations : list PyValue)
    (options : gmap string PyValue) :
  Forall is_object installations ->
  config_flow.installation_options str installations options
  = Return (foldl (add_option str) options installations).
Proof.
  intros Hall. revert options.
  induction Hall as [|inst l [d ->] _ IH]; intros options; [done|].
  cbn [config_flow.installation_options dict_get bind foldl].
  unfold add_option at 2. cbn [site_id site_name].
  destruct (is_none (default VNone (items_get "idSite" d))); apply IH.
Qed.

Lemma add_option_keys (installations : list PyValue)
    (options : gmap string PyValue) (k : string) :
  is_Some (foldl (add_option str) options installations !! k)
  <-> is_Some (options !! k)
      \/ Exists (fun inst => site_id inst <> VNone /\ str (site_id inst) = k)
           installations.
Proof.
  revert options. induction installations as [|inst l IH]; intros options.
  - simpl. rewrite Exists_nil. tauto.
  - cbn [foldl]. rewrite IH, Exists_cons. unfold add_option.
    destruct (is_none (site_id inst)) eqn:E.
    + apply is_none_true in E. rewrite E. intuition congruence.
    + apply is_none_false in E.
      destruct (decide (str (site_id inst) = k)) as [<-|Hne].
      * rewrite lookup_insert_eq. split; [|eauto]. intros _. right. by left.
      * rewrite lookup_insert_ne by done. split.
        -- intros [?|?]; auto.
        -- intros [?|[[_ ?]|?]]; auto. contradiction.
Qed.

Lemma add_option_other (installations : list PyValue)
    (options : gmap string PyValue) (k : string) :
  Forall (fun inst => site_id inst = VNone \/ str (site_id inst) <> k)
    installations ->
  foldl (add_option str) options installations !! k = options !! k.
Proof.
  intros Hall. revert options.
  induction Hall as [|inst l Hinst _ IH]; intros options; [done|].
  cbn [foldl]. rewrite IH. unfold add_option.
  destruct (is_none (site_id inst)) eqn:E; [done|].
  apply is_none_false in E. rewrite lookup_insert_ne; [done|].
  by destruct Hinst.
Qed.

(** X19: the installation step shown after the token step, on installation
    records that are objects: it aborts with "no_installations" exactly when
    every record has a null "idSite"; otherwise it shows the form whose
    options are keyed by the text of the non-null ids. The label of an id is
    the "name" of the last record with that id, or "Installation <id>" when
    that name is missing, null or empty. *)
Theorem installation_step_outcomes (api_token : string)
    (installations : list PyValue) :
  Forall is_object installations ->
  (Forall (fun inst => site_id inst = VNone) installations ->
     config_flow.async_step_installation str api_token installations
     = Return (config_flow.abort const.ERROR_NO_INSTALLATIONS))
  /\ (Exists (fun inst => site_id inst <> VNone) installations ->
      exists options,
        config_flow.async_step_installation str api_token installations
        = Return (config_flow.show_form "installation" ∅
                    (config_flow.installation_schema options))
        /\ (forall k,
              is_Some (options !! k)
              <-> Exists (fun inst => site_id inst <> VNone
                                      /\ str (site_id inst) = k)
                    installations)
        /\ (forall before inst after,
              installations = before ++ inst :: after ->
              site_id inst <> VNone ->
              Forall (fun other => site_id other = VNone
                                   \/ str (site_id other) <> str (site_id inst))
                after ->
              options !! str (site_id inst)
              = Some (py_or (site_name inst)
                        (VStr ("Installation " ++ str (site_id inst)))%string))).
Proof.
  intros Hobj. unfold config_flow.async_step_installation.
  rewrite (installation_options_foldl _ _ Hobj). cbn [bind].
  set (options := foldl (add_option str) ∅ installations).
  assert (forall k,
            is_Some (options !! k)
            <-> Exists (fun inst => site_id inst <> VNone
                                    /\ str (site_id inst) = k) installations)
    as Hkeys.
  { intros k. unfold options. rewrite add_option_keys, lookup_empty.
    split; [intros [[? ?]|?]; [discriminate|done]|auto]. }
  split.
  - intros Hnull.
    assert (options = ∅) as ->.
    { apply map_empty. intros k. apply eq_None_not_Some. rewrite Hkeys.
      intros Hex. apply Exists_exists in Hex as (inst & Hin & Hid & _).
      rewrite Forall_forall in Hnull. by apply Hid, Hnull. }
    by rewrite map_size_empty.
  - intros Hex. exists options.
    destruct (Nat.eqb (size options) 0) eqn:Hsize.
    { exfalso. apply Nat.eqb_eq, map_size_empty_iff in Hsize.
      apply Exists_exists in Hex as (inst & Hin & Hid).
      assert (is_Some (options !! str (site_id inst))) as [v Hv].
      { apply Hkeys, Exists_exists. by exists inst. }
      rewrite Hsize, lookup_empty in Hv. discriminate. }
    split; [done|]. split; [exact Hkeys|].
    intros before inst after -> Hid Hafter. unfold options.
    rewrite foldl_app. cbn [foldl]. rewrite add_option_other by done.
    unfold add_option at 1. apply is_none_false in Hid. rewrite Hid.
    apply lookup_insert_eq.
Qed.

End InstallationStepFacts.

Section TokenStepFacts.
Context `{Builtins}.
Variable str : PyValue -> string.
Variable strip : string -> string.

Lemma kept_installations_are_objects (items : list PyValue) :
  Forall is_object (filter (fun item => api.is_installation item = true) items).
Proof.
  apply Forall_forall. intros item Hin.
  apply list_elem_of_filter in Hin as [Hi _].
  destruct item; try discriminate. by eexists.
Qed.

Lemma installations_of_records transport self payload items :
  transport (api.installations_request self) = Return (VDict payload) ->
  items_get "records" payload = Some (VList items) ->
  api.async_get_installations transport self
  = Return (filter (fun item => api.is_installation item = true) items).
Proof.
  unfold api.async_get_installations. intros -> Hr. simpl. by rewrite Hr.
Qed.

Lemma installations_raise transport self err e :
  transport (api.installations_request self) = Raise err ->
  try_except (Raise err) api.http_clauses = Raise e ->
  api.async_get_installations transport self = Raise e.
Proof. unfold api.async_get_installations. by intros -> ->. Qed.

(** X20: the token step of the configuration flow. Without input it shows
    the form. With a token it lists the installations with the stripped
    token: a response with status 401 or 403 shows the form with
    "invalid_auth", any other aiohttp client failure shows it with
    "cannot_connect", a listing without a usable record shows it with
    "no_installations", and in these cases the flow keeps no token. With at
    least one usable record the flow stores the records and the stripped
    token and goes on with the installation step. *)
Theorem token_step_outcomes (transport : api.Transport)
    (self : config_flow.VictronConfigFlow) (token : string) :
  config_flow.async_step_user str strip transport self None
  = Return (self, config_flow.show_form "user" ∅
                    config_flow.STEP_USER_DATA_SCHEMA)
  /\ (forall err,
        transport (api.installations_request
                     {| api._api_token := strip token |}) = Raise err ->
        (auth_status err ->
           config_flow.async_step_user str strip transport self (Some token)
           = Return (self, config_flow.show_form "user"
                             {[ "base" := const.ERROR_INVALID_AUTH ]}
                             config_flow.STEP_USER_DATA_SCHEMA))
        /\ (client_failure err -> ~ auth_status err ->
           config_flow.async_step_user str strip transport self (Some token)
           = Return (self, config_flow.show_form "user"
                             {[ "base" := const.ERROR_CANNOT_CONNECT ]}
                             config_flow.STEP_USER_DATA_SCHEMA)))
  /\ (forall payload items,
        transport (api.installations_request
                     {| api._api_token := strip token |})
        = Return (VDict payload) ->
        items_get "records" payload = Some (VList items) ->
        (filter (fun item => api.is_installation item = true) items = [] ->
           config_flow.async_step_user str strip transport self (Some token)
           = Return (self, config_flow.show_form "user"
                             {[ "base" := const.ERROR_NO_INSTALLATIONS ]}
                             config_flow.STEP_USER_DATA_SCHEMA))
        /\ (filter (fun item => api.is_installation item = true) items <> [] ->
            exists result,
              config_flow.async_step_installation str (strip token)
                (filter (fun item => api.is_installation item = true) items)
              = Return result
              /\ config_flow.async_step_user str strip transport self (Some token)
                 = Return
                     ({| config_flow._installations :=
                           filter (fun item => api.is_installation item = true)
                             items;
                         config_flow._api_token := Some (strip token) |},
                      result))).
Proof.
  unfold config_flow.async_step_user. split; [done|]. split.
  - intros err Ht. split.
    + intros Ha.
      by rewrite (installations_raise _ _ _ _ Ht (http_clauses_auth _ Ha)).
    + intros Hc Hna.
      by rewrite (installations_raise _ _ _ _ Ht (http_clauses_other _ Hc Hna)).
  - intros payload items Ht Hr.
    rewrite (installations_of_records _ _ _ _ Ht Hr). split.
    + by intros ->.
    + intros Hne.
      pose proof (kept_installations_are_objects items) as Hobj.
      destruct (filter (fun item => api.is_installation item = true) items)
        as [|i kept] eqn:Ef; [done|].
      unfold config_flow.async_step_installation.
      rewrite (installation_options_foldl str _ _ Hobj). cbn [bind].
      destruct (Nat.eqb (size (foldl (add_option str) ∅ (i :: kept))) 0);
        eexists; split; reflexivity.
Qed.
End TokenStepFacts.


(** ** Where the values of a batch come from *)

Section Provenance.
Context `{Builtins}.

Lemma latest_value_non_null (values : PyValue) :
  api.latest_value values <> VNone ->
  exists series t rest,
    values = VList (series ++ [VList (t :: api.latest_value values :: rest)]).
Proof.
  unfold api.latest_value. destruct values as [| | | | |series|]; try done.
  destruct (last series) as [entry|] eqn:El; [|done].
  apply last_Some in El as [series' ->].
  destruct entry as [| | | | |[|t [|v rest]]|]; try done.
  intros _. by exists series', t, rest.
Qed.

Lemma store_latest_origin (a : Z) (v : PyValue) items (acc : gmap Z PyValue) :
  foldl store_latest acc items !! a = Some v ->
  acc !! a = Some v
  \/ exists k values,
       (k, values) ∈ items /\ int_of_str k = Some a
       /\ api.latest_value values = v.
Proof.
  revert acc. induction items as [|[k values] items IH]; intros acc; [by left|].
  cbn [foldl]. intros Hl. destruct (IH _ Hl) as [Hacc|(k' & vs & Hin & Hk & Hv)].
  - unfold store_latest in Hacc. cbn [fst snd] in Hacc.
    destruct (int_of_str k) as [b|] eqn:Hk; [|by left].
    apply lookup_insert_Some in Hacc as [[<- <-]|[_ Hacc]]; [|by left].
    right. exists k, values. split; [apply elem_of_cons; by left|done].
  - right. exists k', vs. split; [apply elem_of_cons; by right|done].
Qed.

(** X21: nothing enters a batch but what the response holds: when the batch
    fetch returns, every non-null value of the batch is the second
    component of the last entry of a series that the response lists under a
    key denoting that attribute id. *)
Theorem batch_values_come_from_response transport self iid ids dev
    (payload items : list (string * PyValue)) (batch : gmap Z PyValue)
    (a : Z) (v : PyValue) :
  transport (api.latest_values_request self iid ids dev) = Return (VDict payload) ->
  well_shaped payload items ->
  api.async_get_latest_values transport self iid ids dev = Return batch ->
  batch !! a = Some v ->
  v <> VNone ->
  exists k series t rest,
    (k, VList (series ++ [VList (t :: v :: rest)])) ∈ items
    /\ int_of_str k = Some a.
Proof.
  intros Ht (records & Hr & Hd).
  rewrite (latest_values_of_payload _ _ _ _ _ _ _ _ Ht Hr Hd).
  intros [= <-] Hv Hnn.
  apply store_latest_origin in Hv as [Hv|(k & values & Hin & Hk & Hv)].
  { by rewrite lookup_empty in Hv. }
  subst v. destruct (latest_value_non_null _ Hnn) as (series & t & rest & Hvals).
  exists k, series, t, rest. split; [|done]. by rewrite <- Hvals.
Qed.
End Provenance.

(** ** Integers as binary64 numbers *)

Section Binary64.

Lemma digits2_pos_size (m : positive) : SpecFloat.digits2_pos m = Pos.size m.
Proof. induction m; simpl; congruence. Qed.

Lemma digits_spec (m : positive) :
  2 ^ (Zpos (SpecFloat.digits2_pos m) - 1) <= Zpos m
  < 2 ^ Zpos (SpecFloat.digits2_pos m).
Proof.
  rewrite digits2_pos_size.
  pose proof (Pos.size_gt m) as Hgt. pose proof (Pos.size_le m) as Hle.
  apply Pos2Z.pos_lt_pos in Hgt. apply Pos2Z.pos_le_pos in Hle.
  rewrite Pos2Z.inj_pow in Hgt, Hle.
  change (Zpos m~0) with (2 * Zpos m) in Hle.
  replace (Zpos (Pos.size m)) with (Z.succ (Zpos (Pos.size m) - 1)) in Hle by lia.
  rewrite Z.pow_succ_r in Hle by lia. lia.
Qed.

Lemma digits_unique (x d : Z) :
  0 < d -> 2 ^ (d - 1) <= x < 2 ^ d -> SpecFloat.Zdigits2 x = d.
Proof.
  intros Hd [Hlo Hhi].
  assert (0 < 2 ^ (d - 1)) as Hpos by (apply Z.pow_pos_nonneg; lia).
  destruct x as [|m|m]; try lia. simpl.
  pose proof (digits_spec m) as [Hl Hh].
  set (k := Zpos (SpecFloat.digits2_pos m)) in *.
  assert (2 ^ (d - 1) < 2 ^ k) as H1 by lia.
  assert (2 ^ (k - 1) < 2 ^ d) as H2 by lia.
  apply Z.pow_lt_mono_r_iff in H1; [|lia|lia].
  apply Z.pow_lt_mono_r_iff in H2; lia.
Qed.

Lemma iter_xO_value (m p : positive) :
  Zpos (Pos.iter xO m p) = Zpos m * 2 ^ Zpos p.
Proof.
  induction p as [|p IH] using Pos.peano_ind.
  - simpl. lia.
  - rewrite Pos.iter_succ, Pos2Z.inj_xO, IH, Pos2Z.inj_succ, Z.pow_succ_r by lia.
    lia.
Qed.

Lemma shr_m_of_loc m l :
  SpecFloat.shr_m (SpecFloat.shr_record_of_loc m l) = m.
Proof. destruct l as [|[]]; reflexivity. Qed.

Lemma shr_1_div r :
  0 <= SpecFloat.shr_m r ->
  SpecFloat.shr_m (SpecFloat.shr_1 r) = SpecFloat.shr_m r / 2.
Proof.
  destruct r as [m r s]. simpl. intros Hm.
  destruct m as [|[p|p|]|p]; simpl SpecFloat.shr_m; try lia.
  - reflexivity.
  - apply (Z.div_unique_pos _ 2 _ 1); lia.
  - apply (Z.div_unique_pos _ 2 _ 0); lia.
  - reflexivity.
Qed.

Lemma iter_shr_1_div p r :
  0 <= SpecFloat.shr_m r ->
  SpecFloat.shr_m (SpecFloat.iter_pos SpecFloat.shr_1 p r)
  = SpecFloat.shr_m r / 2 ^ Zpos p.
Proof.
  revert r. induction p as [p IH|p IH|]; intros r Hr; simpl SpecFloat.iter_pos.
  - assert (0 < 2 ^ Zpos p) as Hp by (apply Z.pow_pos_nonneg; lia).
    assert (0 <= SpecFloat.shr_m (SpecFloat.shr_1 r)) as H1.
    { rewrite shr_1_div by done. apply Z.div_pos; lia. }
    assert (0 <= SpecFloat.shr_m
                   (SpecFloat.iter_pos SpecFloat.shr_1 p (SpecFloat.shr_1 r)))
      as H2.
    { rewrite IH by done. apply Z.div_pos; lia. }
    rewrite IH, IH, shr_1_div by done.
    rewrite !Z.div_div by lia. f_equal.
    assert (Zpos p~1 = 1 + (Zpos p + Zpos p)) as -> by lia.
    rewrite (Z.pow_add_r 2 1), (Z.pow_add_r 2 (Zpos p)) by lia. lia.
  - assert (0 < 2 ^ Zpos p) as Hp by (apply Z.pow_pos_nonneg; lia).
    assert (0 <= SpecFloat.shr_m (SpecFloat.iter_pos SpecFloat.shr_1 p r))
      as H2.
    { rewrite IH by done. apply Z.div_pos; lia. }
    rewrite IH, IH by done. rewrite Z.div_div by lia. f_equal.
    assert (Zpos p~0 = Zpos p + Zpos p) as -> by lia.
    rewrite Z.pow_add_r by lia. lia.
  - by apply shr_1_div.
Qed.

Lemma round_nearest_even_bound mx l :
  mx <= SpecFloat.round_nearest_even mx l <= mx + 1.
Proof.
  destruct l as [|[]]; simpl; try lia. destruct (Z.even mx); lia.
Qed.

(** One normalisation step on a mantissa of at least 53 digits, in the
    normal range: the mantissa comes out with exactly 53 digits. *)
Lemma shr_fexp_normal mx ex lx :
  53 <= SpecFloat.Zdigits2 mx -> 0 < mx ->
  -1074 <= SpecFloat.Zdigits2 mx + ex - 53 ->
  exists r,
    SpecFloat.shr_fexp 53 1024 mx ex lx
    = (r, SpecFloat.Zdigits2 mx + ex - 53)
    /\ 2 ^ 52 <= SpecFloat.shr_m r < 2 ^ 53.
Proof.
  intros HD Hpos He.
  destruct mx as [|m|m]; try lia.
  pose proof (digits_spec m) as [Hlo Hhi].
  unfold SpecFloat.shr_fexp, SpecFloat.shr, SpecFloat.fexp, SpecFloat.emin.
  simpl SpecFloat.Zdigits2 in *.
  set (D := Zpos (SpecFloat.digits2_pos m)) in *.
  replace (Z.max (D + ex - 53) (3 - 1024 - 53) - ex) with (D - 53) by lia.
  destruct (D - 53) as [|p|p] eqn:En; try lia.
  - eexists. split; [f_equal; lia|]. rewrite shr_m_of_loc.
    replace D with 53 in * by lia. simpl in Hlo. lia.
  - eexists. split; [f_equal; lia|].
    rewrite iter_shr_1_div; rewrite shr_m_of_loc; [|lia].
    assert (0 < 2 ^ Zpos p) as Hp by (apply Z.pow_pos_nonneg; lia).
    assert (D = Zpos p + 53) as HDp by lia.
    assert (2 ^ D = 2 ^ Zpos p * 2 ^ 53) as E1.
    { rewrite HDp. apply Z.pow_add_r; lia. }
    assert (2 ^ (D - 1) = 2 ^ Zpos p * 2 ^ 52) as E2.
    { replace (D - 1) with (Zpos p + 52) by lia. apply Z.pow_add_r; lia. }
    split.
    + apply Z.div_le_lower_bound; lia.
    + apply Z.div_lt_upper_bound; lia.
Qed.

Lemma binary_round_aux_valid sx mx ex lx :
  53 <= SpecFloat.Zdigits2 mx -> 0 < mx ->
  -1074 <= SpecFloat.Zdigits2 mx + ex - 53 <= 970 ->
  exists m e,
    SpecFloat.binary_round_aux 53 1024 sx mx ex lx
    = SpecFloat.S754_finite sx m e
    /\ SpecFloat.valid_binary 53 1024 (SpecFloat.S754_finite sx m e) = true.
Proof.
  intros HD Hpos He. unfold SpecFloat.binary_round_aux.
  destruct (shr_fexp_normal mx ex lx HD Hpos ltac:(lia)) as (r1 & -> & Hr1).
  set (e1 := SpecFloat.Zdigits2 mx + ex - 53) in *.
  pose proof (round_nearest_even_bound (SpecFloat.shr_m r1)
                (SpecFloat.loc_of_shr_record r1)) as Hr.
  set (mr := SpecFloat.round_nearest_even _ _) in *.
  assert (SpecFloat.Zdigits2 mr = 53 \/ SpecFloat.Zdigits2 mr = 54) as HD2.
  { destruct (Z.eq_dec mr (2 ^ 53)) as [->|Hne]; [by right|left].
    apply digits_unique; simpl; lia. }
  assert (2 ^ 52 > 0) as H52 by done.
  destruct (shr_fexp_normal mr e1 SpecFloat.loc_Exact ltac:(lia) ltac:(lia)
              ltac:(lia)) as (r2 & -> & Hr2).
  destruct (SpecFloat.shr_m r2) as [|m|m] eqn:Em; try lia.
  assert (SpecFloat.Zdigits2 (Zpos m) = 53) as Hd
    by (apply digits_unique; simpl; lia).
  simpl in Hd.
  set (e2 := SpecFloat.Zdigits2 mr + e1 - 53) in *.
  assert ((e2 <=? 1024 - 53)%Z = true) as -> by (apply Z.leb_le; lia).
  exists m, e2. split; [done|].
  unfold SpecFloat.valid_binary, SpecFloat.bounded, SpecFloat.canonical_mantissa,
    SpecFloat.fexp, SpecFloat.emin.
  rewrite Hd. apply andb_true_iff. split; [apply Z.eqb_eq|apply Z.leb_le]; lia.
Qed.

Lemma binary_round_valid sx (m : positive) :
  Zpos m < 2 ^ 64 ->
  exists m' e',
    SpecFloat.binary_round 53 1024 sx m 0 = SpecFloat.S754_finite sx m' e'
    /\ SpecFloat.valid_binary 53 1024 (SpecFloat.S754_finite sx m' e') = true.
Proof.
  intros Hm. pose proof (digits_spec m) as [Hlo Hhi].
  assert (Zpos (SpecFloat.digits2_pos m) <= 64) as Hd.
  { assert (2 ^ (Zpos (SpecFloat.digits2_pos m) - 1) < 2 ^ 64) as Hlt by lia.
    apply Z.pow_lt_mono_r_iff in Hlt; lia. }
  unfold SpecFloat.binary_round, SpecFloat.shl_align, SpecFloat.fexp,
    SpecFloat.emin.
  set (D := Zpos (SpecFloat.digits2_pos m)) in *.
  replace (Z.max (D + 0 - 53) (3 - 1024 - 53) - 0) with (D - 53) by lia.
  replace (Z.max (D + 0 - 53) (3 - 1024 - 53)) with (D - 53) by lia.
  destruct (D - 53) as [|p|p] eqn:En.
  - apply binary_round_aux_valid; simpl; fold D; lia.
  - apply binary_round_aux_valid; simpl; fold D; lia.
  - assert (SpecFloat.Zdigits2 (Zpos (Pos.iter xO m p)) = 53) as Hd53.
    { apply digits_unique; [lia|]. rewrite iter_xO_value.
      assert (0 < 2 ^ Zpos p) as Hp by (apply Z.pow_pos_nonneg; lia).
      assert (D + Zpos p = 53) as Hsum by lia.
      assert (2 ^ 53 = 2 ^ D * 2 ^ Zpos p) as E1.
      { rewrite <- Hsum. apply Z.pow_add_r; lia. }
      assert (2 ^ 52 = 2 ^ (D - 1) * 2 ^ Zpos p) as E2.
      { replace 52 with (D - 1 + Zpos p) by lia. apply Z.pow_add_r; lia. }
      assert (2 ^ (D - 1) * 2 ^ Zpos p <= Zpos m * 2 ^ Zpos p) as B1
        by (apply Z.mul_le_mono_nonneg_r; lia).
      assert (Zpos m * 2 ^ Zpos p < 2 ^ D * 2 ^ Zpos p) as B2
        by (apply Z.mul_lt_mono_pos_r; lia).
      change (53 - 1) with 52. lia. }
    apply binary_round_aux_valid; rewrite ?Hd53; lia.
Qed.

(** [float(z)] of a non-zero integer of at most 64 bits is a finite float
    that is not zero. *)
Lemma float_of_Z_nonzero (z : Z) :
  - 2 ^ 64 < z < 2 ^ 64 -> z <> 0 ->
  exists f, float_of_Z z = Some f /\ (f =? zero)%float = false.
Proof.
  intros Hz Hnz. unfold float_of_Z, SpecFloat.binary_normalize.
  change FloatOps.prec with 53. change FloatOps.emax with 1024.
  assert (forall sx m, Zpos m < 2 ^ 64 ->
            exists f,
              match SpecFloat.binary_round 53 1024 sx m 0 with
              | SpecFloat.S754_infinity _ => None
              | sf => Some (FloatOps.SF2Prim sf)
              end = Some f /\ (f =? zero)%float = false) as Hgen.
  { intros sx m Hm.
    destruct (binary_round_valid sx m Hm) as (m' & e' & -> & Hv).
    eexists. split; [reflexivity|].
    rewrite FloatAxioms.eqb_spec, (FloatAxioms.Prim2SF_SF2Prim _ Hv).
    by destruct sx. }
  destruct z as [|m|m]; [done| |]; apply Hgen; lia.
Qed.
End Binary64.

(** ** The derivations on decoded batches *)

Section DecodedBatches.
Context `{Builtins}.

Lemma decoded_list (items : list PyValue) :
  decoded (VList items) <-> Forall decoded items.
Proof.
  induction items as [|x items IH]; [by split|].
  rewrite Forall_cons, <- IH. reflexivity.
Qed.

Lemma decoded_dict (items : list (string * PyValue)) :
  decoded (VDict items) <-> Forall (fun item => decoded item.2) items.
Proof.
  induction items as [|[k x] items IH]; [by split|].
  rewrite Forall_cons, <- IH. reflexivity.
Qed.

Lemma items_get_decoded k (items : list (string * PyValue)) v :
  decoded (VDict items) -> items_get k items = Some v -> decoded v.
Proof.
  rewrite decoded_dict. induction 1 as [|[k' x] items Hx _ IH]; [done|].
  simpl. destruct (String.eqb k k'); [by intros [= <-]|exact IH].
Qed.

Lemma dict_get_decoded (payload : PyValue) k dflt v :
  decoded payload -> decoded dflt -> dict_get payload k dflt = Return v ->
  decoded v.
Proof.
  destruct payload as [| | | | | |items]; try discriminate.
  intros Hp Hd [= <-].
  destruct (items_get k items) as [x|] eqn:Ex; [|exact Hd].
  exact (items_get_decoded _ _ _ Hp Ex).
Qed.

Lemma latest_value_decoded (values : PyValue) :
  decoded values -> decoded (api.latest_value values).
Proof.
  unfold api.latest_value.
  destruct values as [| | | | |series|]; try done.
  destruct (last series) as [entry|] eqn:El; [|done].
  apply last_Some in El as [series' ->].
  rewrite decoded_list, Forall_app, Forall_singleton. intros [_ He].
  destruct entry as [| | | | |[|t [|v rest]]|]; try done.
  apply decoded_list in He. apply Forall_cons in He as [_ He].
  by apply Forall_cons in He as [He _].
Qed.

Lemma store_latest_decoded items (acc : gmap Z PyValue) :
  decoded (VDict items) -> decoded_batch acc ->
  decoded_batch (foldl store_latest acc items).
Proof.
  rewrite decoded_dict. intros Hitems. revert acc.
  induction Hitems as [|[k values] items Hv _ IH]; intros acc Hacc; [done|].
  cbn [foldl]. apply IH. unfold store_latest. cbn [fst snd] in *.
  destruct (int_of_str k) as [a|]; [|done].
  intros b v Hb. apply lookup_insert_Some in Hb as [[_ <-]|[_ Hb]].
  - by apply latest_value_decoded.
  - exact (Hacc _ _ Hb).
Qed.

(** Every batch the client returns from a decoded response is a decoded
    batch. *)
Lemma fetched_batch_is_decoded transport self iid ids dev
    (batch : gmap Z PyValue) :
  decoding transport ->
  api.async_get_latest_values transport self iid ids dev = Return batch ->
  decoded_batch batch.
Proof.
  intros Ht. unfold api.async_get_latest_values.
  destruct (transport (api.latest_values_request self iid ids dev))
    as [payload|e] eqn:Et.
  2:{ cbn [try_except handle api.http_clauses existsb].
      destruct (isinstance e ClientResponseError || false).
      - by destruct (api.status_in e [401; 403]).
      - by destruct (isinstance e ClientError || false). }
  apply Ht in Et. cbn [try_except bind].
  destruct (dict_get payload "records" (VDict [])) as [records|e] eqn:Er;
    [|done].
  apply (dict_get_decoded _ _ (VDict []) _ Et I) in Er. cbn [bind].
  destruct records as [| | | | | |records]; try done.
  destruct (dict_get (VDict records) "data" VNone) as [data|e] eqn:Ed; [|done].
  apply (dict_get_decoded _ _ VNone _ Er I) in Ed. cbn [bind].
  destruct data as [| | | | | |items]; try done.
  rewrite extract_foldl. intros [= <-].
  apply store_latest_decoded; [exact Ed|]. intros a v Ha.
  by rewrite lookup_empty in Ha.
Qed.

(** The cache of a coordinator holds decoded batches only: it starts empty,
    and a refresh stores what the client returned or keeps what was there. *)
Lemma refreshed_cache_is_decoded (transports : list api.Transport)
    (self : coordinator.VictronDataUpdateCoordinator) :
  Forall decoding transports ->
  decoded_batch (coordinator.data self) ->
  decoded_batch (coordinator.data (refreshes transports self)).
Proof.
  unfold refreshes. intros Hall. revert self.
  induction Hall as [|transport transports Ht _ IH]; intros self Hself;
    [done|].
  cbn [foldl]. apply IH. unfold coordinator._async_refresh.
  destruct (coordinator._async_update_data transport self) as [batch|e] eqn:Hu.
  - cbn [coordinator.data]. unfold coordinator._async_update_data in Hu.
    fold (gateway_call transport self) in Hu.
    destruct (gateway_call transport self) as [b|e] eqn:Hg.
    + simpl in Hu. injection Hu as <-.
      exact (fetched_batch_is_decoded _ _ _ _ _ _ Ht Hg).
    + destruct (update_data_raises _ _ _ Hg) as [e' He'].
      unfold coordinator._async_update_data in He'.
      fold (gateway_call transport self) in He'. rewrite Hg in He'.
      congruence.
  - by destruct (isinstance e ConfigEntryAuthFailed).
Qed.

Lemma decoded_get (data : gmap Z PyValue) (a : Z) :
  decoded_batch data -> decoded (get data a).
Proof.
  intros Hd. unfold get. destruct (data !! a) as [v|] eqn:E; [|done].
  exact (Hd _ _ E).
Qed.

Lemma decoded_not_overflows (v : PyValue) : decoded v -> ~ overflows v.
Proof.
  unfold overflows, raise. destruct v as [| |z| |s| |]; try discriminate.
  - intros Hz. simpl in Hz. unfold decoded_int in Hz. simpl.
    destruct (Z.eq_dec z 0) as [->|Hnz]; [discriminate|].
    destruct (float_of_Z_nonzero z ltac:(lia) Hnz) as (f & -> & _).
    discriminate.
  - intros _. simpl. destruct (float_of_str s); discriminate.
Qed.

Lemma decoded_convertible (v : PyValue) :
  decoded v -> (~ convertible v <-> non_numeric v).
Proof.
  intros Hv. pose proof (decoded_not_overflows v Hv) as Ho.
  unfold convertible, returns, overflows, raise in *.
  destruct v as [|b|z|f|s|l|d]; simpl in *.
  - split; [done|]. intros _ [x Hx]. discriminate.
  - split; [|done]. intros Hc. apply Hc. eauto.
  - split; [|done]. intros Hc. apply Hc.
    destruct (float_of_Z z); [eauto|done].
  - split; [|done]. intros Hc. apply Hc. eauto.
  - destruct (float_of_str s) as [x|].
    + split; [|done]. intros Hc. exfalso. apply Hc. eauto.
    + split; [done|]. intros _ [x Hx]. discriminate.
  - split; [done|]. intros _ [x Hx]. discriminate.
  - split; [done|]. intros _ [x Hx]. discriminate.
Qed.

(** On a decoded number, [float(v)] is zero exactly when [v == 0]. *)
Lemma number_converted_zero (v : PyValue) (y : float) :
  decoded v -> number v -> py_float v = Return y ->
  (y =? zero)%float = eq_zero v.
Proof.
  destruct v as [|b|z|f|s|l|d]; try done; simpl.
  - intros _ _ [= <-]. by destruct b.
  - unfold decoded_int. intros Hz _.
    destruct (Z.eq_dec z 0) as [->|Hnz]; [by intros [= <-]|].
    destruct (float_of_Z_nonzero z ltac:(lia) Hnz) as (f & -> & Hf).
    intros [= <-]. rewrite Hf. symmetry. by apply Z.eqb_neq.
  - by intros _ _ [= <-].
Qed.

Lemma number_convertible (v : PyValue) :
  decoded v -> number v -> exists x, py_float v = Return x.
Proof.
  intros Hv Hn. destruct (py_float v) as [x|e] eqn:E; [eauto|].
  exfalso. assert (~ convertible v) as Hc.
  { intros [x Hx]. congruence. }
  apply (decoded_convertible v Hv) in Hc. by destruct v.
Qed.

(** C2: on every decoded batch the ratio returns and never raises. When
    each input is null or a number, it is null exactly when the numerator
    is null, the denominator is null or the denominator equals zero, and
    otherwise it is the quotient of the two inputs as floats. An input of
    another type that [float] rejects (a list, an object, a string that is
    not the text of a number) is treated as null: the ratio is null. For
    inputs of any type, the ratio is null exactly when one of them is null
    or rejected or the denominator converts to zero, and otherwise it is
    the floating-point quotient of the converted inputs. *)
Theorem ratio_on_decoded_batch (numerator denominator : Z)
    (data : gmap Z PyValue) :
  decoded_batch data ->
  returns (sensors._calculate_ratio numerator denominator data)
  /\ (get data numerator = VNone \/ number (get data numerator) ->
      get data denominator = VNone \/ number (get data denominator) ->
      (sensors._calculate_ratio numerator denominator data = Return VNone <->
         get data numerator = VNone \/ get data denominator = VNone
         \/ eq_zero (get data denominator) = true)
      /\ (get data numerator <> VNone -> get data denominator <> VNone ->
          eq_zero (get data denominator) = false ->
          exists x y,
            py_float (get data numerator) = Return x
            /\ py_float (get data denominator) = Return y
            /\ sensors._calculate_ratio numerator denominator data
               = Return (VFloat (x / y))))
  /\ (non_numeric (get data numerator) \/ non_numeric (get data denominator) ->
      sensors._calculate_ratio numerator denominator data = Return VNone)
  /\ (sensors._calculate_ratio numerator denominator data = Return VNone <->
        non_numeric (get data numerator)
        \/ non_numeric (get data denominator)
        \/ exists y, py_float (get data denominator) = Return y
                     /\ (y =? zero)%float = true)
  /\ (forall x y,
        py_float (get data numerator) = Return x ->
        py_float (get data denominator) = Return y ->
        (y =? zero)%float = false ->
        sensors._calculate_ratio numerator denominator data
        = Return (VFloat (x / y))).
Proof.
  intros Hdata.
  pose proof (decoded_get data numerator Hdata) as Hn.
  pose proof (decoded_get data denominator Hdata) as Hd.
  destruct (ratio_without_overflow numerator denominator data
              (decoded_not_overflows _ Hn) (decoded_not_overflows _ Hd))
    as [Hnull Hval].
  rewrite (decoded_convertible _ Hn), (decoded_convertible _ Hd) in Hnull.
  revert Hnull Hval Hn Hd.
  generalize (sensors._calculate_ratio numerator denominator data).
  generalize (get data numerator), (get data denominator).
  intros num den result Hnull Hval Hn Hd.
  assert (non_numeric num \/ non_numeric den -> result = Return VNone) as Hmis.
  { intros [Hm|Hm]; apply Hnull; auto. }
  split; [|split; [|split; [exact Hmis|split; [exact Hnull|exact Hval]]]].
  - destruct (py_float num) as [x|e] eqn:Ex.
    2:{ exists VNone. apply Hmis. left. apply (decoded_convertible _ Hn).
        intros [x Hx]. congruence. }
    destruct (py_float den) as [y|e] eqn:Ey.
    2:{ exists VNone. apply Hmis. right. apply (decoded_convertible _ Hd).
        intros [y Hy]. congruence. }
    destruct (y =? zero)%float eqn:Ez.
    + exists VNone. apply Hnull. right; right. eauto.
    + eexists. by apply Hval.
  - intros Hnum Hden.
    destruct Hnum as [->|Hnum].
    { split; [|done]. split; [auto|]. intros _. apply Hmis. by left. }
    destruct Hden as [->|Hden].
    { split; [|done]. split; [auto|]. intros _. apply Hmis. by right. }
    destruct (number_convertible _ Hn Hnum) as [x Hx].
    destruct (number_convertible _ Hd Hden) as [y Hy].
    pose proof (number_converted_zero _ _ Hd Hden Hy) as Hz.
    assert (~ non_numeric num) as Hnn
      by (clear -Hnum; destruct num; simpl in *; tauto).
    assert (~ non_numeric den) as Hnd
      by (clear -Hden; destruct den; simpl in *; tauto).
    split.
    + rewrite Hnull. split.
      * intros [?|[?|(y' & Hy' & Hz')]]; [done|done|].
        right; right. congruence.
      * intros [->|[->|He]]; [done|done|]. right; right. exists y.
        split; [done|congruence].
    + intros _ _ He. exists x, y. split; [done|]. split; [done|].
      apply Hval; [done|done|congruence].
Qed.
End DecodedBatches.

(** ** More of the code on concrete inputs *)

Section OnMoreInputs.
#[local] Existing Instance decimal_builtins.

Lemma batch_442_86_no_overflow (a : Z) : ~ overflows (get batch_442_86 a).
Proof.
  unfold overflows, get, batch_442_86. intros Ho.
  destruct (decide (a = 442)) as [->|H442].
  - rewrite lookup_insert_eq in Ho. discriminate.
  - rewrite lookup_insert_ne in Ho by done.
    destruct (decide (a = 86)) as [->|H86].
    + rewrite lookup_insert_eq in Ho. discriminate.
    + rewrite lookup_insert_ne, lookup_empty in Ho by done. discriminate.
Defined.

(** With 120.0 at attribute 442 and 24.0 at attribute 86, [solar_current]
    is 5.0. *)
Lemma ratio_value_witness :
  sensors._calculate_ratio 442 86 batch_442_86 = Return (VFloat 5).
Proof.
  exact (proj2
    (ratio_value 442 86 batch_442_86
       (batch_442_86_no_overflow 442) (batch_442_86_no_overflow 86))
    120%float 24%float eq_refl eq_refl eq_refl).
Defined.

Lemma batch_integers_decoded : decoded_batch batch_integers.
Proof.
  intros a v. unfold batch_integers.
  destruct (decide (a = 442)) as [->|H442].
  - rewrite lookup_insert_eq. intros [= <-]. unfold decoded, decoded_int. lia.
  - rewrite lookup_insert_ne by done.
    destruct (decide (a = 86)) as [->|H86].
    + rewrite lookup_insert_eq. intros [= <-]. unfold decoded, decoded_int. lia.
    + rewrite lookup_insert_ne, lookup_empty by done. discriminate.
Defined.

(** With the integers 120 at attribute 442 and 24 at attribute 86, a decoded
    batch, [solar_current] is 5.0. *)
Lemma ratio_on_decoded_batch_witness :
  decoded_batch batch_integers
  /\ sensors._calculate_ratio 442 86 batch_integers = Return (VFloat 5).
Proof.
  split; [exact batch_integers_decoded|].
  exact (proj2 (proj2 (proj2 (proj2
    (ratio_on_decoded_batch 442 86 batch_integers batch_integers_decoded))))
    120%float 24%float eq_refl eq_refl eq_refl).
Defined.

Lemma solar_power_in_catalog : solar_power ∈ sensors.SENSOR_DESCRIPTIONS.
Proof.
  unfold solar_power, sensors.SENSOR_DESCRIPTIONS. simpl nth.
  rewrite !elem_of_cons. left. reflexivity.
Defined.

(** After the refresh that brought attribute 442, [solar_power] is
    available exactly when that attribute is not null. *)
Lemma attribute_backed_availability_witness :
  sensors.available
    {| sensors.coordinator :=
         coordinator._async_refresh transport_442 sample_coordinator;
       sensors.entity_description := solar_power |} = true
  <-> get (coordinator.data
             (coordinator._async_refresh transport_442 sample_coordinator))
          442 <> VNone.
Proof.
  exact (proj1
    (attribute_backed_availability solar_power 442
       (coordinator._async_refresh transport_442 sample_coordinator)
       solar_power_in_catalog eq_refl)).
Defined.

Lemma solar_current_ids_agree (a : Z) :
  depends_on solar_current a ->
  coordinator.data (coordinator._async_refresh transport_442 sample_coordinator)
    !! a
  = coordinator.data
      (coordinator._async_refresh transport_442_81 sample_coordinator) !! a.
Proof.
  intros [Ha|Ha]; [discriminate|].
  apply elem_of_cons in Ha as [->|Ha]; [vm_compute; reflexivity|].
  apply list_elem_of_singleton in Ha as ->. vm_compute. reflexivity.
Defined.

(** Attribute 81 in the batch does not change [solar_current]. *)
Lemma native_value_reads_declared_ids_witness :
  sensors.native_value
    {| sensors.coordinator :=
         coordinator._async_refresh transport_442 sample_coordinator;
       sensors.entity_description := solar_current |}
  = sensors.native_value
      {| sensors.coordinator :=
           coordinator._async_refresh transport_442_81 sample_coordinator;
         sensors.entity_description := solar_current |}.
Proof.
  exact (native_value_reads_declared_ids solar_current _ _
           solar_current_in_catalog solar_current_ids_agree).
Defined.

(** The response that carries attribute 442 has the expected shape. *)
Lemma latest_values_payload_shape_witness :
  returns (api.async_get_latest_values transport_442 sample_client 12345
             [86; 442] 0).
Proof.
  apply (proj1 (latest_values_payload_shape transport_442 sample_client 12345
                  [86; 442] 0 payload_442 eq_refl)).
  eexists _, _. split; [reflexivity|]. eexists. split; reflexivity.
Defined.

(** A response with status 500 leaves the update as [UpdateFailed], which is
    not an error of the gateway's kinds. *)
Lemma update_translates_api_errors_witness :
  isinstance (mkExc UpdateFailed None) VictronApiError = false.
Proof.
  exact (proj1
    (update_translates_api_errors (transport_status 500) sample_coordinator
       (mkExc UpdateFailed None) eq_refl)).
Defined.

(** What the options form delivers with one known metric and 45 seconds
    gives an entry with that metric and that interval. *)
Lemma options_entry_witness :
  30 <= 45
  /\ config_flow.options_async_step_user sample_entry (Some sample_options_input)
     = Return (config_flow.create_entry
                 {| config_flow.data_sensors := ["solar_power"];
                    config_flow.data_scan_interval := 45 |}).
Proof.
  assert (config_flow.options_async_step_user sample_entry
            (Some sample_options_input)
          = Return (config_flow.create_entry
                      {| config_flow.data_sensors := ["solar_power"];
                         config_flow.data_scan_interval := 45 |})) as E
    by (vm_compute; reflexivity).
  split; [|exact E].
  exact (proj1 (proj2 (proj2 (proj2
    (options_entry_is_valid sample_entry sample_options_input _ E))))).
Defined.

Lemma sample_options_created :
  config_flow.options_async_step_user sample_entry (Some sample_options_input)
  = Return (config_flow.create_entry
              {| config_flow.data_sensors := ["solar_power"];
                 config_flow.data_scan_interval := 45 |}).
Proof. vm_compute. reflexivity. Qed.

(** An entry that carries the stored options runs at their interval. *)
Lemma stored_options_witness :
  init.scan_interval sample_options_entry = Return 45.
Proof.
  refine (proj1 (proj1 (proj2 (proj2
    (stored_options_are_used sample_entry sample_options_entry
       sample_options_input _ sample_options_created eq_refl eq_refl))) _)).
  vm_compute. discriminate.
Defined.

Lemma sample_installations_are_objects : Forall is_object sample_installations.
Proof. repeat constructor; by eexists. Defined.

(** Two records with ids give the installation form. *)
Lemma installation_step_witness :
  exists options,
    config_flow.async_step_installation text_of "token" sample_installations
    = Return (config_flow.show_form "installation" ∅
                (config_flow.installation_schema options))
    /\ options !! "678" = Some (VStr "Installation 678").
Proof.
  destruct (proj2 (installation_step_outcomes text_of "token"
                     sample_installations sample_installations_are_objects))
    as (options & Hform & _ & Hname).
  { left. discriminate. }
  exists options. split; [exact Hform|].
  exact (Hname [VDict [("idSite", VInt 12345); ("name", VStr "Boat")]]
           (VDict [("idSite", VInt 678)]) [] eq_refl
           ltac:(discriminate) (Forall_nil_2 _)).
Defined.

Lemma sample_setup_returns :
  init.async_setup_entry transport_442 sample_entry = Return sample_runtime_data.
Proof.
  unfold init.async_setup_entry.
  assert (init.descriptions sample_entry = Return sensors.SENSOR_DESCRIPTIONS)
    as -> by reflexivity.
  assert (init.scan_interval sample_entry = Return 60) as -> by reflexivity.
  cbn [bind]. unfold coordinator.async_config_entry_first_refresh.
  assert (exists batch,
            coordinator._async_update_data transport_442
              (init.new_coordinator sample_entry
                 (init.attribute_ids sensors.SENSOR_DESCRIPTIONS)
                 60) = Return batch)
    as [batch ->].
  { eexists. unfold coordinator._async_update_data.
    unfold api.async_get_latest_values, transport_442, payload_442.
    cbn [try_except bind dict_get items_get String.eqb Ascii.eqb Bool.eqb
         from_option id]. reflexivity. }
  reflexivity.
Defined.

(** The setup of the sample entry asks for attribute 86, which
    [solar_current] needs. *)
Lemma setup_entry_witness :
  86 ∈ coordinator.attribute_ids (init.runtime_coordinator sample_runtime_data).
Proof.
  apply (proj1 (proj2 (proj2 (proj2
    (setup_entry_invariant transport_442 sample_entry sample_runtime_data
       sample_setup_returns)))) solar_current 86 solar_current_in_catalog).
  right. apply elem_of_cons. right. apply elem_of_cons. by left.
Defined.

(** The 120.0 of the sample batch is the last entry of the series "442". *)
Lemma batch_values_witness :
  exists k series t rest,
    (k, VList (series ++ [VList (t :: VFloat 120 :: rest)]))
    ∈ [("442", VList [VList [VInt 1700000000; VFloat 120]])]
    /\ int_of_str k = Some 442.
Proof.
  assert (exists batch,
            api.async_get_latest_values transport_442 sample_client 12345
              [86; 442] 0 = Return batch
            /\ batch !! 442 = Some (VFloat 120)) as (batch & Hb & Hv).
  { eexists. split; reflexivity. }
  refine (batch_values_come_from_response transport_442 sample_client 12345
            [86; 442] 0 _ _ batch 442 (VFloat 120) eq_refl _ Hb Hv _).
  - eexists. split; reflexivity.
  - discriminate.
Defined.
End OnMoreInputs.
